(** * Assistant bot: address book, validated fields and command handlers

    A shallow embedding of [assistant_bot.py] together with the properties
    its specification states about it.

    Python values are modelled as follows.
    - [str] is a list of Unicode code points ([pystr]); string literals of
      the source are written [lit "..."].
    - [datetime.date] is a record of year, month and day; the proleptic
      Gregorian ordinal, the weekday and day arithmetic follow the
      [datetime] module.
    - [dict] is an insertion-ordered association list with unique keys.
    - Exceptions are values of [exn]; code that can raise returns a
      [result].  Handlers mutate the address book in place, so they are
      functions from the book to a result paired with the book they leave
      behind.
    - The loop of [main] runs over the lines it is going to read and gives
      the terminal events, the way the run ends and the book at that
      point. *)

From Stdlib Require Import ZArith NArith List String Ascii Bool Lia.
From Stdlib Require Import DecimalString.
Import ListNotations.

(* ================================================================== *)
(** ** Python strings *)

Module PyStr.

Definition codepoint := N.
Definition pystr := list codepoint.

(** A source literal (ASCII text) as a Python string. *)
Definition lit (s : string) : pystr := map N_of_ascii (list_ascii_of_string s).

Fixpoint str_eqb (a b : pystr) : bool :=
  match a, b with
  | [], [] => true
  | x :: a', y :: b' => N.eqb x y && str_eqb a' b'
  | _, _ => false
  end.

(** Truth value of a string: [bool(s)]. *)
Definition truthy (s : pystr) : bool :=
  match s with [] => false | _ :: _ => true end.

Fixpoint startswith (s p : pystr) : bool :=
  match p, s with
  | [], _ => true
  | x :: p', y :: s' => N.eqb x y && startswith s' p'
  | _ :: _, [] => false
  end.

(** [sub in s] on strings: substring test. *)
Fixpoint contains (s sub : pystr) : bool :=
  startswith s sub ||
  match s with
  | [] => false
  | _ :: s' => contains s' sub
  end.

(** [sep.join(parts)]. *)
Fixpoint join (sep : pystr) (parts : list pystr) : pystr :=
  match parts with
  | [] => []
  | [p] => p
  | p :: rest => p ++ sep ++ join sep rest
  end.

Definition in_range (lo hi c : codepoint) : bool :=
  (N.leb lo c && N.leb c hi)%bool.

Definition in_ranges (table : list (codepoint * codepoint)) (c : codepoint) : bool :=
  existsb (fun r => in_range (fst r) (snd r) c) table.

(** Code points with Unicode property Numeric_Type=Decimal (category Nd),
    Unicode 14.0.  These are the characters [str.isdecimal] accepts and the
    ones [\d] matches in a [str] regular expression.  Every entry is a run
    of consecutive digits whose first code point has value 0. *)
Definition decimal_ranges : list (codepoint * codepoint) :=
  [ (48, 57); (1632, 1641); (1776, 1785); (1984, 1993); (2406, 2415);
    (2534, 2543); (2662, 2671); (2790, 2799); (2918, 2927); (3046, 3055);
    (3174, 3183); (3302, 3311); (3430, 3439); (3558, 3567); (3664, 3673);
    (3792, 3801); (3872, 3881); (4160, 4169); (4240, 4249); (6112, 6121);
    (6160, 6169); (6470, 6479); (6608, 6617); (6784, 6793); (6800, 6809);
    (6992, 7001); (7088, 7097); (7232, 7241); (7248, 7257); (42528, 42537);
    (43216, 43225); (43264, 43273); (43472, 43481); (43504, 43513);
    (43600, 43609); (44016, 44025); (65296, 65305); (66720, 66729);
    (68912, 68921); (69734, 69743); (69872, 69881); (69942, 69951);
    (70096, 70105); (70384, 70393); (70736, 70745); (70864, 70873);
    (71248, 71257); (71360, 71369); (71472, 71481); (71904, 71913);
    (72016, 72025); (72784, 72793); (73040, 73049); (73120, 73129);
    (92768, 92777); (92864, 92873); (93008, 93017); (120782, 120831);
    (123200, 123209); (123632, 123641); (125264, 125273);
    (130032, 130041) ]%N.

(** Code points with Numeric_Type=Digit that are not decimal: superscripts,
    subscripts, circled digits and the like. *)
Definition other_digit_ranges : list (codepoint * codepoint) :=
  [ (178, 179); (185, 185); (4969, 4977); (6618, 6618); (8304, 8304);
    (8308, 8313); (8320, 8329); (9312, 9320); (9332, 9340); (9352, 9360);
    (9450, 9450); (9461, 9469); (9471, 9471); (10102, 10110);
    (10112, 10120); (10122, 10130); (68160, 68163); (69216, 69224);
    (69714, 69722); (127232, 127242) ]%N.

Definition isdecimal_char (c : codepoint) : bool := in_ranges decimal_ranges c.

(** The per-character test of [str.isdigit]: Numeric_Type Digit or Decimal. *)
Definition isdigit_char (c : codepoint) : bool :=
  isdecimal_char c || in_ranges other_digit_ranges c.

(** [s.isdigit()]: every character is a digit and there is at least one. *)
Definition isdigit (s : pystr) : bool := truthy s && forallb isdigit_char s.

(** The ten characters ['0'] .. ['9']. *)
Definition is_ascii_digit (c : codepoint) : bool := in_range 48%N 57%N c.

(** Value of a decimal digit character: its offset in its run, modulo 10. *)
Definition decimal_value (c : codepoint) : option Z :=
  match find (fun r => in_range (fst r) (snd r) c) decimal_ranges with
  | Some r => Some (Z.of_N ((c - fst r) mod 10))
  | None => None
  end.

(** [int(s)] for a non-empty run of decimal digits (no sign, no blanks). *)
Fixpoint int_digits (acc : Z) (s : pystr) : option Z :=
  match s with
  | [] => Some acc
  | c :: s' =>
      match decimal_value c with
      | Some v => int_digits (10 * acc + v) s'
      | None => None
      end
  end.

Definition SPACE : codepoint := 32%N.

(** [int(s)] where [s] is a run of decimal digits, possibly after blanks:
    [int] strips surrounding white space before it converts. *)
Fixpoint py_int (s : pystr) : option Z :=
  match s with
  | [] => None
  | c :: s' => if N.eqb c SPACE then py_int s' else int_digits 0 s
  end.

(** ["%0<width>d" % n] for [n >= 0]. *)
Definition zfill (width : nat) (n : Z) : pystr :=
  let digits := lit (NilZero.string_of_uint (N.to_uint (Z.to_N n))) in
  repeat 48%N (width - List.length digits) ++ digits.

End PyStr.

Import PyStr.

(* ================================================================== *)
(** ** Exceptions *)

Inductive exn : Type :=
| KeyError
| ValueError (msg : pystr)
| IndexError
| AttributeError
| OverflowError.

Inductive result (A : Type) : Type :=
| Ok (a : A)
| Raise (e : exn).

Arguments Ok {A} a.
Arguments Raise {A} e.

Definition bind {A B} (m : result A) (k : A -> result B) : result B :=
  match m with
  | Ok a => k a
  | Raise e => Raise e
  end.

Declare Scope py_scope.
Delimit Scope py_scope with py.
Notation "x <- m ;; k" := (bind m (fun x => k))
  (at level 61, m at next level, right associativity) : py_scope.

(* ================================================================== *)
(** ** [datetime.date] *)

Module PyDate.

Local Open Scope Z_scope.

Record date : Type := mkdate { year : Z; month : Z; day : Z }.

Definition MINYEAR : Z := 1.
Definition MAXYEAR : Z := 9999.

Definition is_leap (y : Z) : bool :=
  (y mod 4 =? 0) && (negb (y mod 100 =? 0) || (y mod 400 =? 0)).

Definition DAYS_IN_MONTH (m : Z) : Z :=
  match m with
  | 1 => 31 | 2 => 28 | 3 => 31 | 4 => 30 | 5 => 31 | 6 => 30
  | 7 => 31 | 8 => 31 | 9 => 30 | 10 => 31 | 11 => 30 | 12 => 31
  | _ => -1
  end.

Definition DAYS_BEFORE_MONTH (m : Z) : Z :=
  match m with
  | 1 => 0 | 2 => 31 | 3 => 59 | 4 => 90 | 5 => 120 | 6 => 151
  | 7 => 181 | 8 => 212 | 9 => 243 | 10 => 273 | 11 => 304 | 12 => 334
  | _ => -1
  end.

Definition days_before_year (y : Z) : Z :=
  let y' := y - 1 in y' * 365 + y' / 4 - y' / 100 + y' / 400.

Definition days_in_month (y m : Z) : Z :=
  if (m =? 2) && is_leap y then 29 else DAYS_IN_MONTH m.

Definition days_before_month (y m : Z) : Z :=
  DAYS_BEFORE_MONTH m + (if (m >? 2) && is_leap y then 1 else 0).

Definition ymd2ord (y m d : Z) : Z :=
  days_before_year y + days_before_month y m + d.

Definition toordinal (d : date) : Z := ymd2ord (year d) (month d) (day d).

Definition MAXORDINAL : Z := 3652059.

(** The check of the [date] constructor. *)
Definition valid_ymd (y m d : Z) : bool :=
  (MINYEAR <=? y) && (y <=? MAXYEAR) && (1 <=? m) && (m <=? 12)
  && (1 <=? d) && (d <=? days_in_month y m).

Definition valid_date (d : date) : Prop :=
  valid_ymd (year d) (month d) (day d) = true.

(** [date(y, m, d)]: the constructor checks year, month and day in turn and
    raises [ValueError] on an impossible date. *)
Definition date_new (y m d : Z) : result date :=
  if negb ((MINYEAR <=? y) && (y <=? MAXYEAR))
  then Raise (ValueError (lit "year " ++ zfill 1 y ++ lit " is out of range"))
  else if negb ((1 <=? m) && (m <=? 12))
  then Raise (ValueError (lit "month must be in 1..12"))
  else if negb ((1 <=? d) && (d <=? days_in_month y m))
  then Raise (ValueError (lit "day is out of range for month"))
  else Ok (mkdate y m d).

(** [d.replace(year=y)]. *)
Definition replace_year (d : date) (y : Z) : result date :=
  date_new y (month d) (day d).

(** [d.weekday()]: Monday is 0, Sunday is 6. *)
Definition weekday (d : date) : Z := (toordinal d + 6) mod 7.

(** [d.strftime('%A')] in the default (C) locale. *)
Definition strftime_A (d : date) : pystr :=
  match weekday d with
  | 0 => lit "Monday"
  | 1 => lit "Tuesday"
  | 2 => lit "Wednesday"
  | 3 => lit "Thursday"
  | 4 => lit "Friday"
  | 5 => lit "Saturday"
  | _ => lit "Sunday"
  end.

(** The calendar day after [d]; past [date.max] the result is out of range. *)
Definition next_day (d : date) : result date :=
  if day d <? days_in_month (year d) (month d)
  then Ok (mkdate (year d) (month d) (day d + 1))
  else if month d <? 12
  then Ok (mkdate (year d) (month d + 1) 1)
  else if year d <? MAXYEAR
  then Ok (mkdate (year d + 1) 1 1)
  else Raise OverflowError.

(** The calendar day before [d]; before [date.min] the result is out of range. *)
Definition prev_day (d : date) : result date :=
  if 1 <? day d
  then Ok (mkdate (year d) (month d) (day d - 1))
  else if 1 <? month d
  then Ok (mkdate (year d) (month d - 1) (days_in_month (year d) (month d - 1)))
  else if MINYEAR <? year d
  then Ok (mkdate (year d - 1) 12 31)
  else Raise OverflowError.

Fixpoint step_days (step : date -> result date) (n : nat) (d : date) : result date :=
  match n with
  | O => Ok d
  | S n' => bind (step d) (step_days step n')
  end.

(** [d + timedelta(days=n)]: the date [n] days after [d] ([-n] days before
    it when [n] is negative); [OverflowError] outside [date.min .. date.max]. *)
Definition add_days (d : date) (n : Z) : result date :=
  if 0 <=? n then step_days next_day (Z.to_nat n) d
  else step_days prev_day (Z.to_nat (- n)) d.

(** [(a - b).days]. *)
Definition sub_days (a b : date) : Z := toordinal a - toordinal b.

(** [datetime]: a date and a time of day (naive, no time zone). *)
Record datetime : Type := mkdatetime {
  dt_date : date; hour : Z; minute : Z; second : Z; microsecond : Z }.

(** [str(dt)], that is [dt.isoformat(sep=' ')]. *)
Definition datetime_str (dt : datetime) : pystr :=
  zfill 4 (year (dt_date dt)) ++ lit "-" ++ zfill 2 (month (dt_date dt))
  ++ lit "-" ++ zfill 2 (day (dt_date dt)) ++ lit " "
  ++ zfill 2 (hour dt) ++ lit ":" ++ zfill 2 (minute dt) ++ lit ":"
  ++ zfill 2 (second dt)
  ++ (if microsecond dt =? 0 then [] else lit "." ++ zfill 6 (microsecond dt)).

End PyDate.

Import PyDate.

(* ================================================================== *)
(** ** [datetime.strptime(s, '%d.%m.%Y')] *)

Module Strptime.

(** A backtracking matcher, as the [re] module runs a pattern: the
    candidate matches at the start of the input, in priority order, each
    with what it captured and the input left over. *)
Definition matcher (A : Type) : Type := pystr -> list (A * pystr).

Definition m_ret {A} (a : A) : matcher A := fun s => [(a, s)].

Definition m_bind {A B} (p : matcher A) (f : A -> matcher B) : matcher B :=
  fun s => flat_map (fun ar => f (fst ar) (snd ar)) (p s).

(** [p|q]: the matches of [p] are tried before those of [q]. *)
Definition m_alt {A} (p q : matcher A) : matcher A := fun s => p s ++ q s.

(** One character satisfying [ok]. *)
Definition m_char (ok : codepoint -> bool) : matcher pystr :=
  fun s =>
    match s with
    | c :: r => if ok c then [([c], r)] else []
    | [] => []
    end.

(** [pq]: concatenation, capturing the text of both. *)
Definition m_seq (p q : matcher pystr) : matcher pystr :=
  m_bind p (fun a => m_bind q (fun b => m_ret (a ++ b))).

Definition chr (a : ascii) : codepoint -> bool := N.eqb (N_of_ascii a).
Definition cls (lo hi : ascii) : codepoint -> bool :=
  in_range (N_of_ascii lo) (N_of_ascii hi).

(** [%d]: [3[0-1]|[1-2]\d|0[1-9]|[1-9]| [1-9]]. *)
Definition re_d : matcher pystr :=
  m_alt (m_seq (m_char (chr "3")) (m_char (cls "0" "1")))
 (m_alt (m_seq (m_char (cls "1" "2")) (m_char isdecimal_char))
 (m_alt (m_seq (m_char (chr "0")) (m_char (cls "1" "9")))
 (m_alt (m_char (cls "1" "9"))
        (m_seq (m_char (chr " ")) (m_char (cls "1" "9")))))).

(** [%m]: [1[0-2]|0[1-9]|[1-9]]. *)
Definition re_m : matcher pystr :=
  m_alt (m_seq (m_char (chr "1")) (m_char (cls "0" "2")))
 (m_alt (m_seq (m_char (chr "0")) (m_char (cls "1" "9")))
        (m_char (cls "1" "9"))).

(** [%Y]: [\d\d\d\d]. *)
Definition re_Y : matcher pystr :=
  m_seq (m_char isdecimal_char)
 (m_seq (m_char isdecimal_char)
 (m_seq (m_char isdecimal_char) (m_char isdecimal_char))).

(** The pattern compiled from ['%d.%m.%Y'], with its three named groups.
    It is compiled with IGNORECASE, which changes nothing here: no
    character of the pattern has another case. *)
Definition format_regex : matcher (pystr * pystr * pystr) :=
  m_bind re_d (fun d =>
  m_bind (m_char (chr ".")) (fun _ =>
  m_bind re_m (fun m =>
  m_bind (m_char (chr ".")) (fun _ =>
  m_bind re_Y (fun Y => m_ret (d, m, Y)))))).

(** [regex.match(s)]: the first candidate, if any. *)
Definition re_match {A} (p : matcher A) (s : pystr) : option (A * pystr) :=
  hd_error (p s).

(** [datetime.strptime(data_string, '%d.%m.%Y')].  The texts of the two
    first [ValueError]s quote the input; they are shortened here. *)
Definition strptime (data_string : pystr) : result datetime :=
  match re_match format_regex data_string with
  | None => Raise (ValueError (lit "time data does not match format"))
  | Some (d, m, Y, rest) =>
      if truthy rest
      then Raise (ValueError (lit "unconverted data remains: " ++ rest))
      else
        match py_int Y, py_int m, py_int d with
        | Some y, Some mo, Some da =>
            bind (date_new y mo da) (fun dd => Ok (mkdatetime dd 0 0 0 0))
        | _, _, _ => Raise (ValueError (lit "invalid literal for int()"))
        end
  end.

End Strptime.

Import Strptime.

(* ================================================================== *)
(** ** [dict]: insertion-ordered, keys unique *)

Module PyDict.

Definition dict (V : Type) : Type := list (pystr * V).

(** [d.get(k)]. *)
Fixpoint get {V} (k : pystr) (d : dict V) : option V :=
  match d with
  | [] => None
  | (k', v) :: d' => if str_eqb k k' then Some v else get k d'
  end.

(** [d[k] = v]: an existing key keeps its place, a new one goes last. *)
Fixpoint set {V} (k : pystr) (v : V) (d : dict V) : dict V :=
  match d with
  | [] => [(k, v)]
  | (k', v') :: d' =>
      if str_eqb k k' then (k', v) :: d' else (k', v') :: set k v d'
  end.

(** [del d[k]] for a key that may be absent. *)
Fixpoint del {V} (k : pystr) (d : dict V) : dict V :=
  match d with
  | [] => []
  | (k', v') :: d' => if str_eqb k k' then d' else (k', v') :: del k d'
  end.

Definition keys {V} (d : dict V) : list pystr := map fst d.
Definition values {V} (d : dict V) : list V := map snd d.

(** The invariant of a [dict]: no key occurs twice. *)
Definition wf {V} (d : dict V) : Prop := NoDup (keys d).

End PyDict.

(* ================================================================== *)
(** ** Fields, records and the address book *)

Local Open Scope py_scope.

(** [Field] and its subclasses: a wrapper around [value]. *)
Record Name : Type := mkName { name_value : pystr }.
Record Phone : Type := mkPhone { phone_value : pystr }.
Record Birthday : Type := mkBirthday { birthday_value : datetime }.

(** [Field.__str__] at each subclass: [str(self.value)]. *)
Definition Name_str (n : Name) : pystr := name_value n.
Definition Phone_str (p : Phone) : pystr := phone_value p.
Definition Birthday_str (b : Birthday) : pystr := datetime_str (birthday_value b).

Definition birthday_format_error : pystr :=
  lit "Date of birth must be in DD.MM.YYYY format".
Definition phone_format_error : pystr :=
  lit "Phone number must be 10 digits long".

(** [Birthday.__init__]. *)
Definition Birthday_init (birthday : pystr) : result Birthday :=
  match strptime birthday with
  | Ok date => Ok (mkBirthday date)
  | Raise (ValueError _) => Raise (ValueError birthday_format_error)
  | Raise e => Raise e
  end.

(** [Name.__init__]. *)
Definition Name_init (name : pystr) : Name := mkName name.

(** [Phone.__init__]. *)
Definition Phone_init (phone : pystr) : result Phone :=
  if negb (Nat.eqb (List.length phone) 10 && isdigit phone)
  then Raise (ValueError phone_format_error)
  else Ok (mkPhone phone).

(** [class Record]. *)
Record record : Type := mkRecord {
  name : Name;
  birthday : option Birthday;
  phones : list Phone }.

(** [Record.__init__(name, birthday=None)]: [None] and the empty string
    are both false, and leave the record without a birthday. *)
Definition Record_init (name : pystr) (birthday : option pystr) : result record :=
  b <- match birthday with
       | Some b => if truthy b then (x <- Birthday_init b ;; Ok (Some x)) else Ok None
       | None => Ok None
       end ;;
  Ok (mkRecord (Name_init name) b []).

(** [Record.add_phone]; the result is the record after the call. *)
Definition add_phone (self : record) (phone_number : pystr) : result record :=
  phone <- Phone_init phone_number ;;
  Ok (mkRecord (name self) (birthday self) (phones self ++ [phone])).

(** [Record.find_phone]: the first phone whose value is [phone_number].
    The object returned is identified by its position in [self.phones]. *)
Fixpoint find_phone_from (i : nat) (ps : list Phone) (phone_number : pystr) : option nat :=
  match ps with
  | [] => None
  | phone :: ps' =>
      if str_eqb (phone_value phone) phone_number then Some i
      else find_phone_from (S i) ps' phone_number
  end.

Definition find_phone (self : record) (phone_number : pystr) : option nat :=
  find_phone_from 0 (phones self) phone_number.

(** [phone.value = v] for the phone at position [i]. *)
Fixpoint set_phone_value (i : nat) (v : pystr) (ps : list Phone) : list Phone :=
  match ps, i with
  | [], _ => []
  | _ :: ps', O => mkPhone v :: ps'
  | p :: ps', S i' => p :: set_phone_value i' v ps'
  end.

(** [Record.edit_phone]: the value returned and the record after the call.
    A [Phone] object is always true, so [if phone] only tests for [None]. *)
Definition edit_phone (self : record) (old_number new_number : pystr) : bool * record :=
  match find_phone self old_number with
  | Some i =>
      (true, mkRecord (name self) (birthday self)
                      (set_phone_value i new_number (phones self)))
  | None => (false, self)
  end.

(** [Record.add_birthday]. *)
Definition record_add_birthday (self : record) (b : pystr) : result record :=
  x <- Birthday_init b ;;
  Ok (mkRecord (name self) (Some x) (phones self)).

(** [Record.__str__]. *)
Definition Record_str (self : record) : pystr :=
  lit "Contact name: " ++ name_value (name self) ++ lit ", phones: "
  ++ join (lit "; ") (map phone_value (phones self)).

(** [class AddressBook(UserDict)]: the book is its [data]. *)
Definition AddressBook : Type := PyDict.dict record.

(** [AddressBook.add_record]; a [record] always passes the [isinstance] test. *)
Definition add_record (self : AddressBook) (r : record) : AddressBook :=
  PyDict.set (name_value (name r)) r self.

(** [AddressBook.find]. *)
Definition find (self : AddressBook) (name : pystr) : option record :=
  PyDict.get name self.

(** [AddressBook.delete]. *)
Definition delete (self : AddressBook) (name : pystr) : AddressBook :=
  match PyDict.get name self with
  | Some _ => PyDict.del name self
  | None => self
  end.

(** [birthday_dict[day].append(name)] on a [defaultdict(list)]. *)
Definition defaultdict_append (day name : pystr)
    (d : PyDict.dict (list pystr)) : PyDict.dict (list pystr) :=
  match PyDict.get day d with
  | Some names => PyDict.set day (names ++ [name]) d
  | None => PyDict.set day [name] d
  end.

(** The bucket of a birthday: its weekday name, Monday for a weekend. *)
Definition bucket (birthday_this_year : date) : pystr :=
  let day_of_week := strftime_A birthday_this_year in
  if str_eqb day_of_week (lit "Saturday") || str_eqb day_of_week (lit "Sunday")
  then lit "Monday" else day_of_week.

(** The body of the loop of [get_birthdays_per_week] over [self.data.items()]. *)
Fixpoint birthdays_loop (today end_ : date) (items : list (pystr * record))
    (birthday_dict : PyDict.dict (list pystr)) : result (PyDict.dict (list pystr)) :=
  match items with
  | [] => Ok birthday_dict
  | (name, r) :: items' =>
      b <- match birthday r with
           | Some b => Ok (dt_date (birthday_value b))
           | None => Raise AttributeError
           end ;;
      birthday_this_year <- replace_year b (year today) ;;
      let delta_days := sub_days birthday_this_year end_ in
      if (delta_days <=? 5)%Z && (delta_days >? -2)%Z
      then birthdays_loop today end_ items'
             (defaultdict_append (bucket birthday_this_year) name birthday_dict)
      else birthdays_loop today end_ items' birthday_dict
  end.

(** [AddressBook.get_birthdays_per_week], with [datetime.today().date()]
    passed in as [today]. *)
Definition get_birthdays_per_week (today : date) (self : AddressBook)
    : result (PyDict.dict (list pystr)) :=
  start <- add_days today (- weekday today) ;;
  end_ <- add_days start 6 ;;
  birthdays_loop today end_ self [].

(* ================================================================== *)
(** ** Command handlers *)

(** Handlers work on the one address book of the process and mutate it in
    place: a computation takes the book and gives back its result, or the
    exception it raised, with the book as it is left. *)
Definition M (A : Type) : Type := AddressBook -> result A * AddressBook.

Definition ret {A} (a : A) : M A := fun book => (Ok a, book).
Definition lift {A} (r : result A) : M A := fun book => (r, book).
Definition get_book : M AddressBook := fun book => (Ok book, book).
Definition put_book (book' : AddressBook) : M unit := fun _ => (Ok tt, book').

Definition mbind {A B} (m : M A) (k : A -> M B) : M B :=
  fun book =>
    match m book with
    | (Ok a, book') => k a book'
    | (Raise e, book') => (Raise e, book')
    end.

Notation "x <~ m ;; k" := (mbind m (fun x => k))
  (at level 61, m at next level, right associativity) : py_scope.

(** What a decorated handler returns: a string, or [None]. *)
Inductive pyval : Type :=
| Str (s : pystr)
| PyNone.

Definition VErrorPhone : pystr := lit "The phone number must consist of 10 digits".
Definition VErrorBirthday : pystr := lit "Date of birth must be in DD.MM.YYYY format".

(** The decorator [input_error].  The test of the [ValueError] branch reads
    [(str(VError) in VErrorPhone) or VErrorBirthday]; when it is false the
    function falls off its end and returns [None].  Exceptions of other
    classes are not caught. *)
Definition input_error (func : M pystr) : M pyval :=
  fun book =>
    match func book with
    | (Ok s, book') => (Ok (Str s), book')
    | (Raise KeyError, book') => (Ok (Str (lit "Can't find the contact.")), book')
    | (Raise (ValueError VError), book') =>
        if contains VErrorPhone VError || truthy VErrorBirthday
        then (Ok (Str (lit "Give the correct data, please")), book')
        else (Ok PyNone, book')
    | (Raise IndexError, book') => (Ok (Str (lit "No arguments.")), book')
    | (Raise e, book') => (Raise e, book')
    end.

(** [a, b = args]. *)
Definition unpack2 (args : list pystr) : result (pystr * pystr) :=
  match args with
  | [a; b] => Ok (a, b)
  | _ :: _ :: _ :: _ =>
      Raise (ValueError (lit "too many values to unpack (expected 2)"))
  | _ =>
      Raise (ValueError (lit "not enough values to unpack (expected 2, got "
                         ++ zfill 1 (Z.of_nat (List.length args)) ++ lit ")"))
  end.

(** [[a] = args]. *)
Definition unpack1 (args : list pystr) : result pystr :=
  match args with
  | [a] => Ok a
  | _ :: _ :: _ =>
      Raise (ValueError (lit "too many values to unpack (expected 1)"))
  | [] =>
      Raise (ValueError (lit "not enough values to unpack (expected 1, got 0)"))
  end.

(** [record.phones[0]]. *)
Definition first_phone (r : record) : result Phone :=
  match phones r with
  | p :: _ => Ok p
  | [] => Raise IndexError
  end.

(** The undecorated bodies.  A record found in the book is the stored
    object itself: changing it changes the entry under its key, in place. *)
Definition add_contact_func (args : list pystr) : M pystr :=
  p <~ lift (unpack2 args) ;;
  r <~ lift (Record_init (fst p) None) ;;
  r <~ lift (add_phone r (snd p)) ;;
  book <~ get_book ;;
  _ <~ put_book (add_record book r) ;;
  ret (lit "Contact added.").

Definition change_contact_func (args : list pystr) : M pystr :=
  p <~ lift (unpack2 args) ;;
  book <~ get_book ;;
  match find book (fst p) with
  | Some r =>
      first <~ lift (first_phone r) ;;
      _ <~ put_book (PyDict.set (fst p)
                       (snd (edit_phone r (phone_value first) (snd p))) book) ;;
      ret (lit "Contact updated.")
  | None => ret (lit "Not found.")
  end.

Definition show_phone_func (args : list pystr) : M pystr :=
  name <~ lift (unpack1 args) ;;
  book <~ get_book ;;
  match find book name with
  | Some r => ret (join (lit ", ") (map Phone_str (phones r)))
  | None => ret (lit "Not found.")
  end.

Definition NEWLINE : pystr := [10%N].

Definition show_all_func : M pystr :=
  book <~ get_book ;;
  match book with
  | [] => ret (lit "No contacts stored.")
  | _ :: _ =>
      ret (join NEWLINE
             (map (fun r => Name_str (name r) ++ lit ": "
                            ++ join (lit ", ") (map Phone_str (phones r)))
                  (PyDict.values book)))
  end.

Definition add_birthday_func (args : list pystr) : M pystr :=
  p <~ lift (unpack2 args) ;;
  book <~ get_book ;;
  match find book (fst p) with
  | Some r =>
      r' <~ lift (record_add_birthday r (snd p)) ;;
      _ <~ put_book (PyDict.set (fst p) r' book) ;;
      ret (lit "Birthday added.")
  | None => ret (lit "Contact not found.")
  end.

Definition show_birthday_func (args : list pystr) : M pystr :=
  name <~ lift (unpack1 args) ;;
  book <~ get_book ;;
  match find book name with
  | Some r =>
      match birthday r with
      | Some b => ret (Birthday_str b)
      | None => ret (lit "No birthday found for this contact.")
      end
  | None => ret (lit "No birthday found for this contact.")
  end.

Definition show_birthdays_next_week_func (today : date) : M pystr :=
  book <~ get_book ;;
  birthdays_next_week <~ lift (get_birthdays_per_week today book) ;;
  match birthdays_next_week with
  | [] => ret (lit "No birthdays next week.")
  | _ :: _ =>
      ret (join NEWLINE
             (map (fun dn => fst dn ++ lit ": " ++ join (lit ", ") (snd dn))
                  birthdays_next_week))
  end.

(** The handlers as the module exports them, under [@input_error]. *)
Definition add_contact (args : list pystr) : M pyval :=
  input_error (add_contact_func args).
Definition change_contact (args : list pystr) : M pyval :=
  input_error (change_contact_func args).
Definition show_phone (args : list pystr) : M pyval :=
  input_error (show_phone_func args).
Definition show_all : M pyval := input_error show_all_func.
Definition add_birthday (args : list pystr) : M pyval :=
  input_error (add_birthday_func args).
Definition show_birthday (args : list pystr) : M pyval :=
  input_error (show_birthday_func args).
Definition show_birthdays_next_week (today : date) : M pyval :=
  input_error (show_birthdays_next_week_func today).

(** The commands of [main] that reach a handler, and the call each makes. *)
Inductive command : Type :=
| CmdAdd | CmdChange | CmdPhone | CmdAll
| CmdAddBirthday | CmdShowBirthday | CmdBirthdays.

Definition run (today : date) (c : command) (args : list pystr) : M pyval :=
  match c with
  | CmdAdd => add_contact args
  | CmdChange => change_contact args
  | CmdPhone => show_phone args
  | CmdAll => show_all
  | CmdAddBirthday => add_birthday args
  | CmdShowBirthday => show_birthday args
  | CmdBirthdays => show_birthdays_next_week today
  end.

(** The number of positional arguments a handler unpacks, if it takes any. *)
Definition arity (c : command) : option nat :=
  match c with
  | CmdAdd | CmdChange | CmdAddBirthday => Some 2%nat
  | CmdPhone | CmdShowBirthday => Some 1%nat
  | CmdAll | CmdBirthdays => None
  end.

(* ================================================================== *)
(** ** The specification's wording, for comparison *)

(** The specification's rule for a phone: exactly ten characters, each an
    ASCII digit. *)
Definition spec_phone_ok (s : pystr) : bool :=
  Nat.eqb (List.length s) 10 && forallb is_ascii_digit s.

(** The specification's display format of a birthday: ["DD.MM.YYYY"]. *)
Definition format_DD_MM_YYYY (d : date) : pystr :=
  zfill 2 (day d) ++ lit "." ++ zfill 2 (month d) ++ lit "." ++ zfill 4 (year d).

(** What [str] of a [datetime] at midnight looks like. *)
Definition format_iso_midnight (d : date) : pystr :=
  zfill 4 (year d) ++ lit "-" ++ zfill 2 (month d) ++ lit "-" ++ zfill 2 (day d)
  ++ lit " 00:00:00".

Definition DOT : codepoint := 46%N.

(** The specification's rule for a birthday: the text is DD.MM.YYYY, two
    digits, a dot, two digits, a dot, four digits, and names a real date. *)
Definition spec_birthday_ok (s : pystr) : bool :=
  match s with
  | [d1; d2; p1; m1; m2; p2; y1; y2; y3; y4] =>
      forallb is_ascii_digit [d1; d2; m1; m2; y1; y2; y3; y4]
      && N.eqb p1 DOT && N.eqb p2 DOT
      && match int_digits 0 [y1; y2; y3; y4], int_digits 0 [m1; m2],
               int_digits 0 [d1; d2] with
         | Some y, Some m, Some d => valid_ymd y m d
         | _, _, _ => false
         end
  | _ => false
  end.

(** The texts [strptime] takes for a day: 1 to 31 in one or two digits, a
    one-digit day possibly after a zero or a blank; the second digit of 10
    to 29 may be any Unicode decimal digit. *)
Definition day_text (D : pystr) : bool :=
  match D with
  | [a] => cls "1" "9" a
  | [a; b] =>
      (chr "3" a && cls "0" "1" b) || (cls "1" "2" a && isdecimal_char b)
      || (chr "0" a && cls "1" "9" b) || (chr " " a && cls "1" "9" b)
  | _ => false
  end.

(** The texts it takes for a month: 1 to 12, in one or two digits. *)
Definition month_text (Mo : pystr) : bool :=
  match Mo with
  | [a] => cls "1" "9" a
  | [a; b] => (chr "1" a && cls "0" "2" b) || (chr "0" a && cls "1" "9" b)
  | _ => false
  end.

(** The texts it takes for a year: four decimal digits. *)
Definition year_text (Y : pystr) : bool :=
  match Y with
  | [a; b; c; d] =>
      isdecimal_char a && isdecimal_char b && isdecimal_char c && isdecimal_char d
  | _ => false
  end.

(** [s] reads day [d], month [m] and year [y], in that order, separated by
    dots. *)
Definition birthday_text (s : pystr) (y m d : Z) : Prop :=
  exists D Mo Y,
    s = D ++ DOT :: Mo ++ DOT :: Y
    /\ day_text D = true /\ month_text Mo = true /\ year_text Y = true
    /\ py_int Y = Some y /\ py_int Mo = Some m /\ py_int D = Some d.

(** The weekly query reports [name] under [day]. *)
Definition listed (birthday_dict : PyDict.dict (list pystr)) (day name : pystr) : Prop :=
  exists names, PyDict.get day birthday_dict = Some names /\ In name names.

(** The specification's window: the record has a birthday, [bty] is that
    birthday in the year of [today], and [delta_days], counted from the
    week's end, satisfies [-2 < delta_days <= 5]. *)
Definition in_window (today week_end : date) (r : record) (bty : date) : Prop :=
  exists b,
    birthday r = Some b
    /\ replace_year (dt_date (birthday_value b)) (year today) = Ok bty
    /\ (-2 < toordinal bty - toordinal week_end <= 5)%Z.

(** The specification's bucket: Monday for Saturday and Sunday, the name of
    the weekday otherwise. *)
Definition spec_bucket (bty : date) : pystr :=
  if (weekday bty =? 5)%Z || (weekday bty =? 6)%Z then lit "Monday"
  else strftime_A bty.

(** Every record has a birthday that exists in the year of [today]. *)
Definition all_birthdays_project (today : date) (book : AddressBook) : Prop :=
  Forall (fun nr =>
            exists b bty,
              birthday (snd nr) = Some b
              /\ replace_year (dt_date (birthday_value b)) (year today) = Ok bty)
         book.

(** The exception classes [input_error] has an [except] clause for. *)
Definition caught (e : exn) : bool :=
  match e with
  | KeyError | ValueError _ | IndexError => true
  | AttributeError | OverflowError => false
  end.

(** The strings a handler can answer with when it did not do its job. *)
Definition error_messages : list pystr :=
  [ lit "Can't find the contact."; lit "Give the correct data, please";
    lit "No arguments."; lit "Not found."; lit "Contact not found.";
    lit "No birthday found for this contact." ].

(** A handler invocation failed: an exception escaped, or it returned
    [None] or one of the error messages. *)
Definition failed (out : result pyval) : Prop :=
  match out with
  | Raise _ => True
  | Ok PyNone => True
  | Ok (Str s) => In s error_messages
  end.

(** The same for the undecorated body of a handler: it raised, or returned
    an error message. *)
Definition body_failed (out : result pystr) : Prop :=
  match out with
  | Raise _ => True
  | Ok s => In s error_messages
  end.

(** Sample data. *)
Definition alice : pystr := lit "alice".
Definition bob : pystr := lit "bob".
Definition monday_2024_06_03 : date := mkdate 2024 6 3.

(** Ten ARABIC-INDIC digits, U+0660 .. U+0669. *)
Definition arabic_indic_phone : pystr :=
  [1632; 1633; 1634; 1635; 1636; 1637; 1638; 1639; 1640; 1641]%N.

(** The book after [add alice 1234567890]. *)
Definition book_alice : AddressBook :=
  snd (add_contact [alice; lit "1234567890"] []).

(** ... then [add bob 0987654321] and [add-birthday bob 08.06.1995]. *)
Definition book_alice_bob : AddressBook :=
  snd (add_birthday [bob; lit "08.06.1995"]
         (snd (add_contact [bob; lit "0987654321"] book_alice))).

(** The book after [add alice 1234567890], [add-birthday alice 05.06.1990]. *)
Definition book_alice_birthday : AddressBook :=
  snd (add_birthday [alice; lit "05.06.1990"] book_alice).

(* ================================================================== *)
(** ** The command loop *)

(** Code points [str.isspace] accepts (Unicode 14.0): [str.split()]
    separates words at them and [str.strip()] removes them. *)
Definition whitespace_ranges : list (codepoint * codepoint) :=
  [ (9, 13); (28, 32); (133, 133); (160, 160); (5760, 5760); (8192, 8202);
    (8232, 8233); (8239, 8239); (8287, 8287); (12288, 12288) ]%N.

Definition isspace_char (c : codepoint) : bool := in_ranges whitespace_ranges c.

(** [s.split()]: the maximal runs of characters that are not white space.
    [word] is the run being read. *)
Fixpoint split_from (word s : pystr) : list pystr :=
  match s with
  | [] => if truthy word then [word] else []
  | c :: s' =>
      if isspace_char c
      then (if truthy word then word :: split_from [] s' else split_from [] s')
      else split_from (word ++ [c]) s'
  end.

Definition split (s : pystr) : list pystr := split_from [] s.

(** [s.lstrip()] and [s.strip()]. *)
Fixpoint lstrip (s : pystr) : pystr :=
  match s with
  | [] => []
  | c :: s' => if isspace_char c then lstrip s' else s
  end.

Definition strip (s : pystr) : pystr := rev (lstrip (rev (lstrip s))).

Definition isascii (s : pystr) : bool := forallb (fun c => N.ltb c 128%N) s.

Definition ascii_lower_char (c : codepoint) : codepoint :=
  if in_range 65%N 90%N c then (c + 32)%N else c.

(** [s.lower()].  On ASCII text it maps ['A'..'Z'] to ['a'..'z'] and keeps
    the rest; on other text it applies the case mapping of Unicode, which
    is not spelled out here and is the parameter [unicode_lower]. *)
Definition lower (unicode_lower : pystr -> pystr) (s : pystr) : pystr :=
  if isascii s then map ascii_lower_char s else unicode_lower s.

(** [hello_command]. *)
Definition hello_command : pystr := lit "How can I help you?".

(** [parse_input]: the command, stripped and in lower case, and the
    arguments.  [cmd, *args = ...] needs at least one word. *)
Definition parse_input (unicode_lower : pystr -> pystr) (user_input : pystr)
    : result (pystr * list pystr) :=
  match split user_input with
  | [] =>
      Raise (ValueError
               (lit "not enough values to unpack (expected at least 1, got 0)"))
  | cmd :: args => Ok (lower unicode_lower (strip cmd), args)
  end.

(** What the program does at its terminal: [input(prompt)] writes the
    prompt and reads a line, [print] writes a line. *)
Inductive event : Type :=
| Input (prompt : pystr)
| Print (line : pystr).

(** [str(v)] for what a handler returned, as [print] shows it. *)
Definition pyval_str (v : pyval) : pystr :=
  match v with
  | Str s => s
  | PyNone => lit "None"
  end.

(** One turn of the loop of [main], after the line was read: the loop goes
    on with the book after printing a line, or prints and breaks, or an
    exception leaves [main]. *)
Inductive turn : Type :=
| TurnContinue (line : pystr) (book : AddressBook)
| TurnBreak (line : pystr)
| TurnRaise (e : exn) (book : AddressBook).

Definition print_result (r : result pyval * AddressBook) : turn :=
  match r with
  | (Ok v, book') => TurnContinue (pyval_str v) book'
  | (Raise e, book') => TurnRaise e book'
  end.

Definition is_command (command : pystr) (name : string) : bool :=
  str_eqb command (lit name).

(** The body of [while True] in [main]; [today] is what
    [datetime.today().date()] gives during this turn. *)
Definition main_turn (unicode_lower : pystr -> pystr) (today : date)
    (user_input : pystr) (book : AddressBook) : turn :=
  match parse_input unicode_lower user_input with
  | Raise e => TurnRaise e book
  | Ok (command, args) =>
      if is_command command "close" || is_command command "exit"
      then TurnBreak (lit "Good bye!")
      else if is_command command "hello"
      then TurnContinue hello_command book
      else if is_command command "add"
      then print_result (add_contact args book)
      else if is_command command "change"
      then print_result (change_contact args book)
      else if is_command command "phone"
      then print_result (show_phone args book)
      else if is_command command "all"
      then print_result (show_all book)
      else if is_command command "add-birthday"
      then print_result (add_birthday args book)
      else if is_command command "show-birthday"
      then print_result (show_birthday args book)
      else if is_command command "birthdays"
      then print_result (show_birthdays_next_week today book)
      else TurnContinue (lit "Not a valid command '" ++ command ++ lit "'") book
  end.

(** How a run of [main] ends: by [break], by an exception nothing catches,
    or, when the input is used up, by the [EOFError] of [input]. *)
Inductive ending : Type :=
| Exited
| Uncaught (e : exn)
| EndOfInput.

Definition PROMPT : pystr := lit "Enter a command: ".

(** The loop of [main] on the lines it is going to read, each with the
    date of the day it is read on: the terminal events, how the run ends
    and the book at that point. *)
Fixpoint main_loop (unicode_lower : pystr -> pystr)
    (inputs : list (date * pystr)) (book : AddressBook)
    : list event * ending * AddressBook :=
  match inputs with
  | [] => ([Input PROMPT], EndOfInput, book)
  | (today, user_input) :: rest =>
      match main_turn unicode_lower today user_input book with
      | TurnContinue line book' =>
          let '(events, e, b) := main_loop unicode_lower rest book' in
          (Input PROMPT :: Print line :: events, e, b)
      | TurnBreak line => ([Input PROMPT; Print line], Exited, book)
      | TurnRaise e book' => ([Input PROMPT], Uncaught e, book')
      end
  end.

(** [main]: the book starts empty. *)
Definition main (unicode_lower : pystr -> pystr) (inputs : list (date * pystr))
    : list event * ending * AddressBook :=
  let '(events, e, b) := main_loop unicode_lower inputs [] in
  (Print (lit "Welcome to the assistant bot!") :: events, e, b).

(* ================================================================== *)
(** ** Predicates for the properties below *)

(** A word: not empty, no white space in it. *)
Definition is_word (w : pystr) : Prop :=
  w <> [] /\ Forall (fun c => isspace_char c = false) w.

(** The phone text passes the check of [Phone]. *)
Definition valid_phone (phone : pystr) : bool :=
  Nat.eqb (List.length phone) 10 && isdigit phone.

(** The state of a book that the handlers maintain: keys are unique, every
    record is stored under its own name and has at least one phone. *)
Definition book_ok (book : AddressBook) : Prop :=
  PyDict.wf book
  /\ Forall (fun kr => name_value (name (snd kr)) = fst kr
                       /\ phones (snd kr) <> [])
            book.

(** The function each command calls, before [input_error] wraps it. *)
Definition handler_func (today : date) (c : command) (args : list pystr) : M pystr :=
  match c with
  | CmdAdd => add_contact_func args
  | CmdChange => change_contact_func args
  | CmdPhone => show_phone_func args
  | CmdAll => show_all_func
  | CmdAddBirthday => add_birthday_func args
  | CmdShowBirthday => show_birthday_func args
  | CmdBirthdays => show_birthdays_next_week_func today
  end.

(** [book_alice_bob] after [add-birthday alice 10.06.1999]: every contact
    has a birthday. *)
Definition book_birthdays : AddressBook :=
  snd (add_birthday [alice; lit "10.06.1999"] book_alice_bob).

(** The record has a birthday on 29 February. *)
Definition born_on_leap_day (r : record) : Prop :=
  exists b,
    birthday r = Some b
    /\ month (dt_date (birthday_value b)) = 2%Z
    /\ day (dt_date (birthday_value b)) = 29%Z.

(** The record has a birthday. *)
Definition has_birthday (r : record) : Prop := exists b, birthday r = Some b.

(** The record has a birthday that exists in the year of [today] and falls
    outside the window of the weekly query: before the Saturday of the week
    of [today], or after the Friday of the week that follows. *)
Definition outside_window (today : date) (r : record) : Prop :=
  exists b bty,
    birthday r = Some b
    /\ replace_year (dt_date (birthday_value b)) (year today) = Ok bty
    /\ ~ (-2 < toordinal bty - (toordinal today - weekday today + 6) <= 5)%Z.

(** The number [n], written with [width] digits, is a text [text_ok]
    accepts and [int] reads back as [n]. *)
Definition reads_back (text_ok : pystr -> bool) (width : nat) (n : Z) : bool :=
  text_ok (zfill width n)
  && match py_int (zfill width n) with
     | Some v => Z.eqb v n
     | None => false
     end.

(** [P] holds of 1, 2, ..., [n]. *)
Definition all_upto (P : Z -> bool) (n : Z) : bool :=
  forallb (fun k => P (Z.of_nat k)) (seq 1 (Z.to_nat n)).

(** The handler a command word stands for, if it stands for one. *)
Definition command_of_word (w : pystr) : option command :=
  if is_command w "add" then Some CmdAdd
  else if is_command w "change" then Some CmdChange
  else if is_command w "phone" then Some CmdPhone
  else if is_command w "all" then Some CmdAll
  else if is_command w "add-birthday" then Some CmdAddBirthday
  else if is_command w "show-birthday" then Some CmdShowBirthday
  else if is_command w "birthdays" then Some CmdBirthdays
  else None.

(** The words [main] does something else with than calling a handler. *)
Definition is_exit_word (w : pystr) : bool :=
  is_command w "close" || is_command w "exit".

(** A line with nothing on it but white space. *)
Definition is_blank (s : pystr) : Prop :=
  Forall (fun c => isspace_char c = true) s.

(** The names of the days the weekly query can report under. *)
Definition working_days : list pystr :=
  [ lit "Monday"; lit "Tuesday"; lit "Wednesday"; lit "Thursday"; lit "Friday" ].

(** The line of [show_all] for one record. *)
Definition contact_line (r : record) : pystr :=
  Name_str (name r) ++ lit ": " ++ join (lit ", ") (map Phone_str (phones r)).

(* ================================================================== *)
(** ** Basic facts *)

Lemma str_eqb_refl (s : pystr) : str_eqb s s = true.
Proof.
  induction s as [|c s IH]; simpl; [reflexivity|].
  now rewrite N.eqb_refl, IH.
Qed.

Lemma str_eqb_eq (a b : pystr) : str_eqb a b = true <-> a = b.
Proof.
  split; [|intros ->; apply str_eqb_refl].
  revert b; induction a as [|x a IH]; intros [|y b]; simpl; try discriminate; auto.
  intros H. apply andb_true_iff in H as [Hx Hab].
  apply N.eqb_eq in Hx. f_equal; auto.
Qed.

Lemma str_eqb_neq (a b : pystr) : str_eqb a b = false <-> a <> b.
Proof.
  rewrite <- str_eqb_eq. destruct (str_eqb a b); split; congruence.
Qed.

Lemma dict_get_set_same {V} (k : pystr) (v : V) (d : PyDict.dict V) :
  PyDict.get k (PyDict.set k v d) = Some v.
Proof.
  induction d as [|[k' v'] d IH]; simpl.
  - now rewrite str_eqb_refl.
  - destruct (str_eqb k k') eqn:E; simpl; rewrite E; auto.
Qed.

Lemma dict_get_set_other {V} (k k0 : pystr) (v : V) (d : PyDict.dict V) :
  k0 <> k -> PyDict.get k0 (PyDict.set k v d) = PyDict.get k0 d.
Proof.
  intros Hne. induction d as [|[k' v'] d IH]; simpl.
  - apply str_eqb_neq in Hne. now rewrite Hne.
  - destruct (str_eqb k k') eqn:E; simpl.
    + apply str_eqb_eq in E; subst k'. apply str_eqb_neq in Hne. now rewrite Hne.
    + destruct (str_eqb k0 k'); auto.
Qed.

Lemma dict_keys_set_present {V} (k : pystr) (v v0 : V) (d : PyDict.dict V) :
  PyDict.get k d = Some v0 -> PyDict.keys (PyDict.set k v d) = PyDict.keys d.
Proof.
  induction d as [|[k' v'] d IH]; simpl; [discriminate|].
  destruct (str_eqb k k') eqn:E; simpl; [reflexivity|].
  intros H. now rewrite IH.
Qed.

(* ================================================================== *)
(** ** Phone construction (C3) *)

Lemma ascii_digit_isdigit (c : codepoint) :
  is_ascii_digit c = true -> isdigit_char c = true.
Proof.
  unfold is_ascii_digit, isdigit_char, isdecimal_char, in_ranges.
  intros H. cbn [decimal_ranges existsb fst snd]. now rewrite H.
Qed.

Lemma isdigit_forallb (s : pystr) :
  List.length s = 10%nat -> isdigit s = forallb isdigit_char s.
Proof. destruct s; [discriminate|reflexivity]. Qed.

(** C3, as the specification states it, fails: ten ARABIC-INDIC digits are
    not ASCII digits, and [Phone] accepts them. *)
Lemma Phone_init_accepts_non_ascii_digits :
  Phone_init arabic_indic_phone = Ok (mkPhone arabic_indic_phone)
  /\ spec_phone_ok arabic_indic_phone = false.
Proof. split; reflexivity. Qed.

(** C3 (amended): [Phone] construction succeeds, storing its argument
    unchanged, exactly when the string has ten characters that are all
    digits in the sense of [str.isdigit] (any Unicode digit); every string
    of ten ASCII digits is such a string; every other string raises
    [ValueError]. *)
Theorem Phone_init_succeeds_iff (s : pystr) :
  ((exists p, Phone_init s = Ok p)
     <-> List.length s = 10%nat /\ Forall (fun c => isdigit_char c = true) s)
  /\ (forall p, Phone_init s = Ok p -> phone_value p = s)
  /\ (spec_phone_ok s = true -> Phone_init s = Ok (mkPhone s))
  /\ ((forall p, Phone_init s <> Ok p) ->
      Phone_init s = Raise (ValueError phone_format_error)).
Proof.
  assert (Hdec : forallb isdigit_char s = true
                 <-> Forall (fun c => isdigit_char c = true) s).
  { rewrite forallb_forall, Forall_forall. reflexivity. }
  assert (Hascii : spec_phone_ok s = true ->
                   Nat.eqb (List.length s) 10 = true
                   /\ forallb isdigit_char s = true).
  { unfold spec_phone_ok. intros H. apply andb_true_iff in H as [Hl H].
    split; [exact Hl|]. apply forallb_forall. intros c Hc.
    apply ascii_digit_isdigit. rewrite forallb_forall in H. auto. }
  unfold Phone_init.
  destruct (Nat.eqb (List.length s) 10) eqn:Hlen.
  - apply Nat.eqb_eq in Hlen. rewrite (isdigit_forallb s Hlen).
    destruct (forallb isdigit_char s) eqn:Hall; simpl.
    + split; [|split; [|split]].
      * split; [intros _; split; [exact Hlen|now apply Hdec]|eauto].
      * intros p [= <-]; reflexivity.
      * reflexivity.
      * intros H. exfalso. eapply H; reflexivity.
    + split; [|split; [|split]].
      * split; [intros [p ?]; discriminate|].
        intros [_ HF]. apply Hdec in HF. discriminate.
      * discriminate.
      * intros H. apply Hascii in H as [_ H]. discriminate.
      * reflexivity.
  - simpl. split; [|split; [|split]].
    + split; [intros [p ?]; discriminate|].
      intros [Hl _]. apply Nat.eqb_neq in Hlen. contradiction.
    + discriminate.
    + intros H. apply Hascii in H as [H _]. discriminate.
    + reflexivity.
Qed.

Lemma Phone_init_succeeds_iff_witness :
  spec_phone_ok (lit "1234567890") = true
  /\ Phone_init (lit "1234567890") = Ok (mkPhone (lit "1234567890"))
  /\ Phone_init (lit "12345") = Raise (ValueError phone_format_error).
Proof.
  split; [reflexivity|]. split.
  - apply (Phone_init_succeeds_iff (lit "1234567890")). reflexivity.
  - apply (Phone_init_succeeds_iff (lit "12345")). intros p; discriminate.
Defined.

(* ================================================================== *)
(** ** The decorator *)

Lemma input_error_ValueError (func : M pystr) (book book' : AddressBook) (msg : pystr) :
  func book = (Raise (ValueError msg), book') ->
  input_error func book = (Ok (Str (lit "Give the correct data, please")), book').
Proof.
  intros H. unfold input_error. rewrite H.
  replace (truthy VErrorBirthday) with true by reflexivity.
  now rewrite orb_true_r.
Qed.

Lemma input_error_Ok (func : M pystr) (book book' : AddressBook) (s : pystr) :
  func book = (Ok s, book') -> input_error func book = (Ok (Str s), book').
Proof. intros H. unfold input_error. now rewrite H. Qed.

(* ================================================================== *)
(** ** Wrong number of arguments (C5) *)

Lemma unpack2_wrong_length (args : list pystr) :
  List.length args <> 2%nat -> exists msg, unpack2 args = Raise (ValueError msg).
Proof.
  destruct args as [|a [|b [|c rest]]]; simpl; intros H; eauto; contradiction.
Qed.

Lemma unpack1_wrong_length (args : list pystr) :
  List.length args <> 1%nat -> exists msg, unpack1 args = Raise (ValueError msg).
Proof.
  destruct args as [|a [|b rest]]; simpl; intros H; eauto; contradiction.
Qed.

(** C5: a handler that unpacks its arguments, called with the wrong number
    of them, answers "Give the correct data, please" and not
    "No arguments.": unpacking raises [ValueError], not [IndexError]. *)
Theorem wrong_arity_answer (today : date) (c : command) (n : nat)
    (args : list pystr) (book : AddressBook) :
  arity c = Some n -> List.length args <> n ->
  run today c args book = (Ok (Str (lit "Give the correct data, please")), book)
  /\ run today c args book <> (Ok (Str (lit "No arguments.")), book).
Proof.
  intros Ha Hn.
  assert (H : run today c args book
              = (Ok (Str (lit "Give the correct data, please")), book)).
  { destruct c; simpl in Ha; try discriminate; injection Ha as <-; simpl.
    all: first [ destruct (unpack2_wrong_length args Hn) as [msg Hm]
               | destruct (unpack1_wrong_length args Hn) as [msg Hm] ].
    all: apply input_error_ValueError with (msg := msg).
    all: unfold add_contact_func, change_contact_func, show_phone_func,
           add_birthday_func, show_birthday_func, mbind, lift.
    all: now rewrite Hm. }
  split; [exact H|]. rewrite H. discriminate.
Qed.

Lemma wrong_arity_answer_witness :
  add_contact [alice] [] = (Ok (Str (lit "Give the correct data, please")), [])
  /\ add_contact [alice] [] <> (Ok (Str (lit "No arguments.")), []).
Proof.
  apply (wrong_arity_answer monday_2024_06_03 CmdAdd 2 [alice] []).
  - reflexivity.
  - simpl. lia.
Defined.

(* ================================================================== *)
(** ** Showing a birthday (C6) *)

Lemma strptime_midnight (s : pystr) (dt : datetime) :
  strptime s = Ok dt -> dt = mkdatetime (dt_date dt) 0 0 0 0.
Proof.
  unfold strptime.
  destruct (re_match format_regex s) as [[[[d m] Y] rest]|]; [|discriminate].
  destruct (truthy rest); [discriminate|].
  destruct (py_int Y); [|discriminate].
  destruct (py_int m); [|discriminate].
  destruct (py_int d); [|discriminate].
  destruct (date_new z z0 z1); simpl; [|discriminate].
  intros [= <-]. reflexivity.
Qed.

Lemma Birthday_init_midnight (s : pystr) (b : Birthday) :
  Birthday_init s = Ok b ->
  birthday_value b = mkdatetime (dt_date (birthday_value b)) 0 0 0 0.
Proof.
  unfold Birthday_init. destruct (strptime s) as [dt|e] eqn:E.
  - intros [= <-]. simpl. now apply strptime_midnight with (s := s).
  - destruct e; discriminate.
Qed.

Lemma datetime_str_midnight (d : date) :
  datetime_str (mkdatetime d 0 0 0 0) = format_iso_midnight d.
Proof. reflexivity. Qed.

(** C6, as the specification states it, fails: for the birthday entered as
    05.06.1990 the handler answers "1990-06-05 00:00:00", not "05.06.1990". *)
Lemma show_birthday_not_DD_MM_YYYY :
  exists r b,
    find book_alice_birthday alice = Some r
    /\ birthday r = Some b
    /\ format_DD_MM_YYYY (dt_date (birthday_value b)) = lit "05.06.1990"
    /\ show_birthday [alice] book_alice_birthday
       = (Ok (Str (lit "1990-06-05 00:00:00")), book_alice_birthday)
    /\ fst (show_birthday [alice] book_alice_birthday)
       <> Ok (Str (format_DD_MM_YYYY (dt_date (birthday_value b)))).
Proof.
  eexists. eexists.
  split; [reflexivity|]. split; [reflexivity|]. split; [reflexivity|].
  split; [reflexivity|]. vm_compute. discriminate.
Qed.

(** C6 (amended): for a contact of the book whose birthday was set (by
    [Birthday] construction from some text), the show-birthday handler
    returns [str] of the stored [datetime]: "YYYY-MM-DD 00:00:00", and
    leaves the book as it is. *)
Theorem show_birthday_returns_iso_datetime
    (book : AddressBook) (name s : pystr) (r : record) (b : Birthday) :
  find book name = Some r -> birthday r = Some b -> Birthday_init s = Ok b ->
  show_birthday [name] book
  = (Ok (Str (format_iso_midnight (dt_date (birthday_value b)))), book).
Proof.
  intros Hf Hb Hs. apply input_error_Ok.
  unfold show_birthday_func, mbind, lift, get_book, ret. simpl.
  rewrite Hf, Hb. unfold Birthday_str.
  rewrite (Birthday_init_midnight s b Hs). now rewrite datetime_str_midnight.
Qed.

Lemma show_birthday_returns_iso_datetime_witness :
  show_birthday [alice] book_alice_birthday
  = (Ok (Str (lit "1990-06-05 00:00:00")), book_alice_birthday).
Proof.
  exact (show_birthday_returns_iso_datetime book_alice_birthday alice
           (lit "05.06.1990")
           (mkRecord (mkName alice)
              (Some (mkBirthday (mkdatetime (mkdate 1990 6 5) 0 0 0 0)))
              [mkPhone (lit "1234567890")])
           (mkBirthday (mkdatetime (mkdate 1990 6 5) 0 0 0 0))
           eq_refl eq_refl eq_refl).
Defined.

(* ================================================================== *)
(** ** Editing a phone (C7) *)

Lemma find_phone_from_first (ps : list Phone) (old new : pystr) (i : nat) :
  match find_phone_from i ps old with
  | Some j =>
      exists l1 p l2,
        ps = l1 ++ p :: l2
        /\ phone_value p = old
        /\ ~ In old (map phone_value l1)
        /\ j = (i + List.length l1)%nat
        /\ set_phone_value (List.length l1) new ps = l1 ++ mkPhone new :: l2
  | None => ~ In old (map phone_value ps)
  end.
Proof.
  revert i. induction ps as [|q ps IH]; intros i; simpl.
  - tauto.
  - destruct (str_eqb (phone_value q) old) eqn:E.
    + apply str_eqb_eq in E.
      exists [], q, ps. simpl. repeat split; auto; lia.
    + apply str_eqb_neq in E. specialize (IH (S i)).
      destruct (find_phone_from (S i) ps old) as [j|].
      * destruct IH as (l1 & p & l2 & Hps & Hp & Hnin & Hj & Hset).
        exists (q :: l1), p, l2. simpl. repeat split.
        -- now rewrite Hps.
        -- exact Hp.
        -- intros [H|H]; [contradiction|auto].
        -- lia.
        -- now rewrite Hset.
      * intros [H|H]; [contradiction|auto].
Qed.

(** C7: when some phone of the record has the value [old], [edit_phone]
    gives the first such phone the value [new], whatever [new] is (no
    validation), leaves the others as they are and returns true; when none
    has, it returns false and the record is unchanged. *)
Theorem edit_phone_first_match (r : record) (old new : pystr) :
  (In old (map phone_value (phones r)) ->
   exists l1 p l2,
     phones r = l1 ++ p :: l2
     /\ phone_value p = old
     /\ ~ In old (map phone_value l1)
     /\ edit_phone r old new
        = (true, mkRecord (name r) (birthday r) (l1 ++ mkPhone new :: l2)))
  /\ (~ In old (map phone_value (phones r)) -> edit_phone r old new = (false, r)).
Proof.
  unfold edit_phone, find_phone.
  pose proof (find_phone_from_first (phones r) old new 0) as H.
  destruct (find_phone_from 0 (phones r) old) as [j|].
  - destruct H as (l1 & p & l2 & Hps & Hp & Hnin & Hj & Hset).
    simpl in Hj. subst j. split.
    + intros _. exists l1, p, l2. repeat split; auto. now rewrite Hset.
    + intros Hn. exfalso. apply Hn. rewrite Hps, map_app. apply in_or_app.
      right. left. exact Hp.
  - split; [intros Hin; contradiction|reflexivity].
Qed.

Lemma edit_phone_first_match_witness :
  let r := mkRecord (mkName alice) None
             [mkPhone (lit "1111111111"); mkPhone (lit "2222222222");
              mkPhone (lit "2222222222")] in
  (exists l1 p l2,
     phones r = l1 ++ p :: l2
     /\ phone_value p = lit "2222222222"
     /\ ~ In (lit "2222222222") (map phone_value l1)
     /\ edit_phone r (lit "2222222222") (lit "not a number")
        = (true, mkRecord (name r) (birthday r) (l1 ++ mkPhone (lit "not a number") :: l2)))
  /\ edit_phone r (lit "3333333333") (lit "4444444444") = (false, r).
Proof.
  intros r. split.
  - apply (edit_phone_first_match r (lit "2222222222") (lit "not a number")).
    simpl. right. left. reflexivity.
  - apply (edit_phone_first_match r (lit "3333333333") (lit "4444444444")).
    simpl. intros [H|[H|[H|[]]]]; discriminate H.
Defined.

(* ================================================================== *)
(** ** Adding records (C8, C10) *)

Lemma add_record_keys_present (book : AddressBook) (r r0 : record) :
  find book (name_value (name r)) = Some r0 ->
  PyDict.keys (add_record book r) = PyDict.keys book.
Proof. intros H. unfold add_record. eapply dict_keys_set_present, H. Qed.

(** C8: after [add_record(R1)] and [add_record(R2)] with the same name,
    [find(name)] returns [R2]; the second insertion adds no entry, it
    overwrites the one of [R1]. *)
Theorem add_record_overwrites (book : AddressBook) (R1 R2 : record) :
  name R1 = name R2 ->
  find (add_record (add_record book R1) R2) (name_value (name R2)) = Some R2
  /\ PyDict.keys (add_record (add_record book R1) R2)
     = PyDict.keys (add_record book R1).
Proof.
  intros Hn. split.
  - unfold find, add_record at 1. apply dict_get_set_same.
  - apply add_record_keys_present with (r0 := R1).
    rewrite <- Hn. unfold find, add_record. apply dict_get_set_same.
Qed.

Lemma add_record_overwrites_witness :
  let R1 := mkRecord (mkName alice) None [mkPhone (lit "1111111111")] in
  let R2 := mkRecord (mkName alice) None [mkPhone (lit "2222222222")] in
  find (add_record (add_record book_alice_bob R1) R2) alice = Some R2
  /\ PyDict.keys (add_record (add_record book_alice_bob R1) R2)
     = PyDict.keys (add_record book_alice_bob R1).
Proof.
  intros R1 R2. apply (add_record_overwrites book_alice_bob R1 R2). reflexivity.
Defined.

(** C10: [add] for a name already in the book, with a valid phone, answers
    "Contact added." and puts a fresh record in the place of the stored one:
    the contact then has the new phone only and no birthday. *)
Theorem add_contact_replaces_record
    (book : AddressBook) (name phone : pystr) (old : record) :
  find book name = Some old ->
  List.length phone = 10%nat -> isdigit phone = true ->
  let fresh := mkRecord (mkName name) None [mkPhone phone] in
  add_contact [name; phone] book
  = (Ok (Str (lit "Contact added.")), PyDict.set name fresh book)
  /\ find (PyDict.set name fresh book) name = Some fresh
  /\ PyDict.keys (PyDict.set name fresh book) = PyDict.keys book.
Proof.
  intros Hf Hl Hd fresh. split; [|split].
  - apply input_error_Ok.
    unfold add_contact_func, mbind, lift, get_book, put_book, ret. simpl.
    unfold add_phone, Phone_init. rewrite Hl, Hd. reflexivity.
  - apply dict_get_set_same.
  - eapply dict_keys_set_present, Hf.
Qed.

Lemma add_contact_replaces_record_witness :
  let fresh := mkRecord (mkName bob) None [mkPhone (lit "5555555555")] in
  add_contact [bob; lit "5555555555"] book_alice_bob
  = (Ok (Str (lit "Contact added.")), PyDict.set bob fresh book_alice_bob)
  /\ find (PyDict.set bob fresh book_alice_bob) bob = Some fresh
  /\ PyDict.keys (PyDict.set bob fresh book_alice_bob) = PyDict.keys book_alice_bob.
Proof.
  exact (add_contact_replaces_record book_alice_bob bob (lit "5555555555")
           (mkRecord (mkName bob)
              (Some (mkBirthday (mkdatetime (mkdate 1995 6 8) 0 0 0 0)))
              [mkPhone (lit "0987654321")])
           eq_refl eq_refl eq_refl).
Defined.

(* ================================================================== *)
(** ** Records without a birthday (C1, C2) *)

(** C2: the birthdays handler does not return when a stored record has no
    birthday.  After [add alice 1234567890] the record of alice has none;
    the query reads [record.birthday.value], the [AttributeError] is none
    of the three classes [input_error] catches, and it escapes. *)
Theorem show_birthdays_next_week_escapes :
  find book_alice alice
  = Some (mkRecord (mkName alice) None [mkPhone (lit "1234567890")])
  /\ show_birthdays_next_week monday_2024_06_03 book_alice
     = (Raise AttributeError, book_alice).
Proof. split; reflexivity. Qed.

(** C1: with one record without a birthday in the book the weekly query
    raises, and so includes nobody: bob, whose birthday projected onto 2024
    is Saturday 8 June, one day before the week's end of Sunday 9 June
    ([delta_days = -1]), is not reported. *)
Theorem get_birthdays_per_week_raises :
  exists r b bty,
    find book_alice_bob bob = Some r
    /\ birthday r = Some b
    /\ replace_year (dt_date (birthday_value b)) (year monday_2024_06_03) = Ok bty
    /\ add_days monday_2024_06_03 (6 - weekday monday_2024_06_03)
       = Ok (mkdate 2024 6 9)
    /\ sub_days bty (mkdate 2024 6 9) = (-1)%Z
    /\ get_birthdays_per_week monday_2024_06_03 book_alice_bob
       = Raise AttributeError.
Proof.
  do 3 eexists.
  split; [reflexivity|]. split; [reflexivity|]. split; [reflexivity|].
  split; [reflexivity|]. split; reflexivity.
Qed.

(* ================================================================== *)
(** ** No mutation on failure (C9) *)

Lemma input_error_snd (func : M pystr) (book : AddressBook) :
  snd (input_error func book) = snd (func book).
Proof.
  unfold input_error. destruct (func book) as [[s|e] book']; [reflexivity|].
  destruct e; try reflexivity.
  destruct (contains VErrorPhone msg || truthy VErrorBirthday); reflexivity.
Qed.

Lemma input_error_failed (func : M pystr) (book : AddressBook) :
  failed (fst (input_error func book)) -> body_failed (fst (func book)).
Proof.
  unfold input_error. destruct (func book) as [[s|e] book']; simpl; auto.
Qed.

Ltac run_body :=
  unfold add_contact_func, change_contact_func, show_phone_func, show_all_func,
    add_birthday_func, show_birthday_func, show_birthdays_next_week_func,
    mbind, lift, get_book, put_book, ret; simpl.

Ltac not_an_error_message H :=
  exfalso; vm_compute in H; intuition discriminate.

Lemma add_contact_func_failed (args : list pystr) (book : AddressBook) :
  body_failed (fst (add_contact_func args book)) ->
  snd (add_contact_func args book) = book.
Proof.
  run_body. destruct (unpack2 args) as [[a b]|e]; simpl; [|reflexivity].
  destruct (add_phone _ b); simpl; [|reflexivity].
  intros H. not_an_error_message H.
Qed.

Lemma change_contact_func_failed (args : list pystr) (book : AddressBook) :
  body_failed (fst (change_contact_func args book)) ->
  snd (change_contact_func args book) = book.
Proof.
  run_body. destruct (unpack2 args) as [[a b]|e]; simpl; [|reflexivity].
  destruct (find book a) as [r|]; simpl; [|reflexivity].
  destruct (first_phone r); simpl; [|reflexivity].
  intros H. not_an_error_message H.
Qed.

Lemma add_birthday_func_failed (args : list pystr) (book : AddressBook) :
  body_failed (fst (add_birthday_func args book)) ->
  snd (add_birthday_func args book) = book.
Proof.
  run_body. destruct (unpack2 args) as [[a b]|e]; simpl; [|reflexivity].
  destruct (find book a) as [r|]; simpl; [|reflexivity].
  destruct (record_add_birthday r b); simpl; [|reflexivity].
  intros H. not_an_error_message H.
Qed.

Lemma show_phone_func_reads (args : list pystr) (book : AddressBook) :
  snd (show_phone_func args book) = book.
Proof.
  run_body. destruct (unpack1 args); simpl; [|reflexivity].
  destruct (find book a); reflexivity.
Qed.

Lemma show_all_func_reads (book : AddressBook) : snd (show_all_func book) = book.
Proof. run_body. destruct book; reflexivity. Qed.

Lemma show_birthday_func_reads (args : list pystr) (book : AddressBook) :
  snd (show_birthday_func args book) = book.
Proof.
  run_body. destruct (unpack1 args); simpl; [|reflexivity].
  destruct (find book a) as [r|]; [|reflexivity].
  destruct (birthday r); reflexivity.
Qed.

Lemma show_birthdays_next_week_func_reads (today : date) (book : AddressBook) :
  snd (show_birthdays_next_week_func today book) = book.
Proof.
  run_body. destruct (get_birthdays_per_week today book) as [[|x l]|e]; reflexivity.
Qed.

(** C9: whenever a handler fails (an exception escapes it, or it answers
    with an error message instead of its success string), the address book,
    with every record in it, is what it was before the call. *)
Theorem failure_leaves_book_unchanged
    (today : date) (c : command) (args : list pystr) (book : AddressBook) :
  failed (fst (run today c args book)) -> snd (run today c args book) = book.
Proof.
  destruct c; simpl;
    unfold add_contact, change_contact, show_phone, show_all, add_birthday,
      show_birthday, show_birthdays_next_week;
    intros H; rewrite input_error_snd; apply input_error_failed in H.
  - now apply add_contact_func_failed.
  - now apply change_contact_func_failed.
  - apply show_phone_func_reads.
  - apply show_all_func_reads.
  - now apply add_birthday_func_failed.
  - apply show_birthday_func_reads.
  - apply show_birthdays_next_week_func_reads.
Qed.

Lemma failure_leaves_book_unchanged_witness :
  snd (add_contact [alice; lit "12345"] book_alice_bob) = book_alice_bob
  /\ snd (add_birthday [alice; lit "31.02.1990"] book_alice_bob) = book_alice_bob.
Proof.
  split.
  - apply (failure_leaves_book_unchanged monday_2024_06_03 CmdAdd
             [alice; lit "12345"] book_alice_bob).
    vm_compute. tauto.
  - apply (failure_leaves_book_unchanged monday_2024_06_03 CmdAddBirthday
             [alice; lit "31.02.1990"] book_alice_bob).
    vm_compute. tauto.
Defined.

(* ================================================================== *)
(** ** Birthday construction (C4) *)

Section Matchers.

Context {A B : Type}.

Lemma In_m_bind (p : matcher A) (f : A -> matcher B) (s r : pystr) (b : B) :
  In (b, r) (m_bind p f s)
  <-> exists a r1, In (a, r1) (p s) /\ In (b, r) (f a r1).
Proof.
  unfold m_bind. rewrite in_flat_map. split.
  - intros [[a r1] [H1 H2]]. exists a, r1. auto.
  - intros (a & r1 & H1 & H2). exists (a, r1). auto.
Qed.

Lemma In_m_ret (a x : A) (s r : pystr) :
  In (x, r) (m_ret a s) <-> x = a /\ r = s.
Proof.
  unfold m_ret. simpl. split.
  - intros [[= -> ->]|[]]. auto.
  - intros [-> ->]. auto.
Qed.

Lemma In_m_alt (p q : matcher A) (s : pystr) (x : A * pystr) :
  In x (m_alt p q s) <-> In x (p s) \/ In x (q s).
Proof. unfold m_alt. apply in_app_iff. Qed.

Lemma hd_error_In (l : list A) (x : A) : hd_error l = Some x -> In x l.
Proof. destruct l; simpl; [discriminate|]. intros [= ->]. now left. Qed.

Lemma hd_error_unique (l : list A) (x : A) :
  (forall y, In y l -> y = x) -> In x l -> hd_error l = Some x.
Proof.
  destruct l as [|z l]; simpl; [tauto|].
  intros Hu _. f_equal. apply Hu. now left.
Qed.

End Matchers.

Lemma In_m_char (ok : codepoint -> bool) (s r x : pystr) :
  In (x, r) (m_char ok s) <-> exists c, s = c :: r /\ ok c = true /\ x = [c].
Proof.
  unfold m_char. destruct s as [|c s']; simpl.
  - split; [tauto|]. intros (c & H & _). discriminate.
  - destruct (ok c) eqn:E; simpl; split.
    + intros [[= <- <-]|[]]. eauto.
    + intros (c' & [= -> ->] & _ & ->). auto.
    + tauto.
    + intros (c' & [= -> ->] & H & _). congruence.
Qed.

Lemma In_m_seq (p q : matcher pystr) (s r x : pystr) :
  In (x, r) (m_seq p q s)
  <-> exists a b r1, In (a, r1) (p s) /\ In (b, r) (q r1) /\ x = a ++ b.
Proof.
  unfold m_seq. rewrite In_m_bind. split.
  - intros (a & r1 & H1 & H2). apply In_m_bind in H2 as (b & r2 & H2 & H3).
    apply In_m_ret in H3 as [-> ->]. exists a, b, r1. auto.
  - intros (a & b & r1 & H1 & H2 & ->). exists a, r1. split; [exact H1|].
    apply In_m_bind. exists b, r. split; [exact H2|]. now apply In_m_ret.
Qed.

(** Two characters in a row. *)
Lemma In_two_chars (ok1 ok2 : codepoint -> bool) (s r x : pystr) :
  In (x, r) (m_seq (m_char ok1) (m_char ok2) s)
  <-> exists a b, s = a :: b :: r /\ ok1 a = true /\ ok2 b = true /\ x = [a; b].
Proof.
  rewrite In_m_seq. split.
  - intros (a & b & r1 & H1 & H2 & ->).
    apply In_m_char in H1 as (c1 & -> & Hc1 & ->).
    apply In_m_char in H2 as (c2 & -> & Hc2 & ->).
    exists c1, c2. auto.
  - intros (a & b & -> & Ha & Hb & ->).
    exists [a], [b], (b :: r).
    split; [apply In_m_char; eexists; eauto|]. split; [apply In_m_char; eexists; eauto|reflexivity].
Qed.

Lemma In_re_d (s r D : pystr) :
  In (D, r) (re_d s) <-> day_text D = true /\ s = D ++ r.
Proof.
  unfold re_d. rewrite !In_m_alt, !In_two_chars, In_m_char. split.
  - intros [H|[H|[H|[H|H]]]].
    + destruct H as (a & b & -> & Ha & Hb & ->). simpl. now rewrite Ha, Hb.
    + destruct H as (a & b & -> & Ha & Hb & ->). simpl.
      rewrite Ha, Hb. now rewrite orb_true_r.
    + destruct H as (a & b & -> & Ha & Hb & ->). simpl.
      rewrite Ha, Hb. now rewrite !orb_true_r.
    + destruct H as (c & -> & Hc & ->). simpl. auto.
    + destruct H as (a & b & -> & Ha & Hb & ->). simpl.
      rewrite Ha, Hb. now rewrite !orb_true_r.
  - intros [H ->]. destruct D as [|a [|b [|c D]]]; simpl in H; try discriminate.
    + right; right; right; left. exists a. auto.
    + rewrite !orb_true_iff, !andb_true_iff in H.
      destruct H as [[[[Ha Hb]|[Ha Hb]]|[Ha Hb]]|[Ha Hb]].
      * left. exists a, b. auto.
      * right; left. exists a, b. auto.
      * right; right; left. exists a, b. auto.
      * right; right; right; right. exists a, b. auto.
Qed.

Lemma In_re_m (s r Mo : pystr) :
  In (Mo, r) (re_m s) <-> month_text Mo = true /\ s = Mo ++ r.
Proof.
  unfold re_m. rewrite !In_m_alt, !In_two_chars, In_m_char. split.
  - intros [H|[H|H]].
    + destruct H as (a & b & -> & Ha & Hb & ->). simpl. now rewrite Ha, Hb.
    + destruct H as (a & b & -> & Ha & Hb & ->). simpl.
      rewrite Ha, Hb. now rewrite orb_true_r.
    + destruct H as (c & -> & Hc & ->). simpl. auto.
  - intros [H ->]. destruct Mo as [|a [|b [|c Mo]]]; simpl in H; try discriminate.
    + right; right. exists a. auto.
    + rewrite !orb_true_iff, !andb_true_iff in H.
      destruct H as [[Ha Hb]|[Ha Hb]].
      * left. exists a, b. auto.
      * right; left. exists a, b. auto.
Qed.

Lemma In_re_Y (s r Y : pystr) :
  In (Y, r) (re_Y s) <-> year_text Y = true /\ s = Y ++ r.
Proof.
  unfold re_Y. rewrite !In_m_seq. split.
  - intros (x1 & t1 & r1 & H1 & H & ->).
    apply In_m_seq in H as (x2 & t2 & r2 & H2 & H & ->).
    apply In_m_seq in H as (x3 & x4 & r3 & H3 & H4 & ->).
    apply In_m_char in H1 as (a & -> & Ha & ->).
    apply In_m_char in H2 as (b & -> & Hb & ->).
    apply In_m_char in H3 as (c & -> & Hc & ->).
    apply In_m_char in H4 as (d & -> & Hd & ->).
    simpl. now rewrite Ha, Hb, Hc, Hd.
  - intros [H ->].
    destruct Y as [|a [|b [|c [|d [|e Y]]]]]; simpl in H; try discriminate.
    rewrite !andb_true_iff in H. destruct H as [[[Ha Hb] Hc] Hd].
    cbn [app]. exists [a], [b; c; d], (b :: c :: d :: r).
    split; [apply In_m_char; eexists; eauto|]. split; [|reflexivity].
    apply In_m_seq. exists [b], [c; d], (c :: d :: r).
    split; [apply In_m_char; eexists; eauto|]. split; [|reflexivity].
    apply In_m_seq. exists [c], [d], (d :: r).
    split; [apply In_m_char; eexists; eauto|]. split; [apply In_m_char; eexists; eauto|reflexivity].
Qed.

Lemma chr_dot (c : codepoint) : chr "." c = true <-> c = DOT.
Proof.
  unfold chr. change (N_of_ascii ".") with DOT.
  rewrite N.eqb_eq. split; congruence.
Qed.

Lemma In_format_regex (s r D Mo Y : pystr) :
  In (D, Mo, Y, r) (format_regex s)
  <-> day_text D = true /\ month_text Mo = true /\ year_text Y = true
      /\ s = D ++ DOT :: Mo ++ DOT :: Y ++ r.
Proof.
  unfold format_regex. rewrite In_m_bind. split.
  - intros (d & r1 & Hd & H). apply In_re_d in Hd as [Hd ->].
    apply In_m_bind in H as (x1 & r2 & H1 & H).
    apply In_m_char in H1 as (c1 & -> & Hc1 & _). apply chr_dot in Hc1 as ->.
    apply In_m_bind in H as (m & r3 & Hm & H). apply In_re_m in Hm as [Hm ->].
    apply In_m_bind in H as (x2 & r4 & H2 & H).
    apply In_m_char in H2 as (c2 & -> & Hc2 & _). apply chr_dot in Hc2 as ->.
    apply In_m_bind in H as (y & r5 & Hy & H). apply In_re_Y in Hy as [Hy ->].
    apply In_m_ret in H as [[= -> -> ->] ->]. auto.
  - intros (Hd & Hm & Hy & ->).
    exists D, (DOT :: Mo ++ DOT :: Y ++ r). split; [now apply In_re_d|].
    apply In_m_bind. exists [DOT], (Mo ++ DOT :: Y ++ r).
    split; [apply In_m_char; exists DOT; auto|].
    apply In_m_bind. exists Mo, (DOT :: Y ++ r). split; [now apply In_re_m|].
    apply In_m_bind. exists [DOT], (Y ++ r).
    split; [apply In_m_char; exists DOT; auto|].
    apply In_m_bind. exists Y, r. split; [now apply In_re_Y|].
    now apply In_m_ret.
Qed.

Ltac dot_is_no_digit H :=
  repeat match type of H with
    | context [chr ?a DOT] => change (chr a DOT) with false in H
    | context [cls ?a ?b DOT] => change (cls a b DOT) with false in H
    | context [isdecimal_char DOT] => change (isdecimal_char DOT) with false in H
    end;
  rewrite ?andb_false_r in H; cbn [andb orb] in H; try discriminate H.

Lemma day_text_no_dot (D : pystr) : day_text D = true -> ~ In DOT D.
Proof.
  destruct D as [|a [|b [|c D]]]; simpl; try discriminate.
  - intros H [E|[]]. subst a. dot_is_no_digit H.
  - intros H [E|[E|[]]]; [subst a|subst b]; dot_is_no_digit H.
Qed.

Lemma month_text_no_dot (Mo : pystr) : month_text Mo = true -> ~ In DOT Mo.
Proof.
  destruct Mo as [|a [|b [|c Mo]]]; simpl; try discriminate.
  - intros H [E|[]]. subst a. dot_is_no_digit H.
  - intros H [E|[E|[]]]; [subst a|subst b]; dot_is_no_digit H.
Qed.

Lemma year_text_length (Y : pystr) : year_text Y = true -> List.length Y = 4%nat.
Proof.
  destruct Y as [|a [|b [|c [|d [|e Y]]]]]; simpl; try discriminate. reflexivity.
Qed.

Lemma split_at_dot (X X' Z Z' : pystr) :
  ~ In DOT X -> ~ In DOT X' ->
  X ++ DOT :: Z = X' ++ DOT :: Z' -> X = X' /\ Z = Z'.
Proof.
  revert X'. induction X as [|x X IH]; intros [|x' X'] Hn Hn' E; simpl in *.
  - injection E as ->. auto.
  - injection E as <- _. exfalso. apply Hn'. now left.
  - injection E as -> _. exfalso. apply Hn. now left.
  - injection E as -> E. destruct (IH X') as [-> ->]; auto.
Qed.

Lemma app_same_length (X X' Z Z' : pystr) :
  List.length X = List.length X' -> X ++ Z = X' ++ Z' -> X = X' /\ Z = Z'.
Proof.
  revert X'. induction X as [|x X IH]; intros [|x' X'] Hl E; simpl in *;
    try discriminate; auto.
  injection E as -> E. injection Hl as Hl. destruct (IH X' Hl E) as [-> ->]. auto.
Qed.

(** The pattern matches in at most one way. *)
Lemma format_regex_unique (s : pystr) (x y : pystr * pystr * pystr * pystr) :
  In x (format_regex s) -> In y (format_regex s) -> y = x.
Proof.
  destruct x as [[[D Mo] Y] r], y as [[[D' Mo'] Y'] r'].
  intros H H'. apply In_format_regex in H as (Hd & Hm & Hy & E).
  apply In_format_regex in H' as (Hd' & Hm' & Hy' & E'). subst s.
  apply split_at_dot in E' as [-> E']; auto using day_text_no_dot.
  apply split_at_dot in E' as [-> E']; auto using month_text_no_dot.
  apply app_same_length in E' as [-> ->]; [reflexivity|].
  now rewrite !year_text_length.
Qed.

Lemma re_match_format_regex (s : pystr) (x : pystr * pystr * pystr * pystr) :
  re_match format_regex s = Some x <-> In x (format_regex s).
Proof.
  unfold re_match. split; [apply hd_error_In|].
  intros H. apply hd_error_unique; [|exact H].
  intros y Hy. now apply format_regex_unique with (s := s).
Qed.

Lemma date_new_Ok (y m d : Z) (x : date) :
  date_new y m d = Ok x <-> valid_ymd y m d = true /\ x = mkdate y m d.
Proof.
  unfold date_new, valid_ymd.
  destruct (MINYEAR <=? y)%Z, (y <=? MAXYEAR)%Z, (1 <=? m)%Z, (m <=? 12)%Z,
    (1 <=? d)%Z, (d <=? days_in_month y m)%Z; simpl;
    split; try discriminate; try (intros [H _]; discriminate H).
  - intros [= <-]. auto.
  - intros [_ ->]. reflexivity.
Qed.

Lemma date_new_Raise (y m d : Z) (e : exn) :
  date_new y m d = Raise e -> exists msg, e = ValueError msg.
Proof.
  unfold date_new.
  repeat match goal with |- context [if ?c then _ else _] => destruct c end;
    try discriminate; intros [= <-]; eauto.
Qed.

Lemma truthy_false (s : pystr) : truthy s = false <-> s = [].
Proof. destruct s; simpl; split; congruence. Qed.

Lemma strptime_Ok (s : pystr) (dt : datetime) :
  strptime s = Ok dt
  <-> exists y m d,
        birthday_text s y m d /\ valid_ymd y m d = true
        /\ dt = mkdatetime (mkdate y m d) 0 0 0 0.
Proof.
  unfold strptime, birthday_text. split.
  - destruct (re_match format_regex s) as [[[[D Mo] Y] r]|] eqn:E; [|discriminate].
    apply re_match_format_regex, In_format_regex in E as (Hd & Hm & Hy & ->).
    destruct (truthy r) eqn:Hr; [discriminate|]. apply truthy_false in Hr as ->.
    destruct (py_int Y) as [y|] eqn:Ey; [|discriminate].
    destruct (py_int Mo) as [m|] eqn:Em; [|discriminate].
    destruct (py_int D) as [d|] eqn:Ed; [|discriminate].
    destruct (date_new y m d) as [x|e] eqn:En; simpl; [|discriminate].
    apply date_new_Ok in En as [Hv ->]. intros [= <-].
    exists y, m, d. split; [|auto].
    exists D, Mo, Y. rewrite app_nil_r. auto 10.
  - intros (y & m & d & (D & Mo & Y & -> & Hd & Hm & Hy & Ey & Em & Ed) & Hv & ->).
    assert (E : re_match format_regex (D ++ DOT :: Mo ++ DOT :: Y)
                = Some (D, Mo, Y, [])).
    { apply re_match_format_regex, In_format_regex. rewrite app_nil_r. auto. }
    rewrite E. simpl. rewrite Ey, Em, Ed.
    assert (En : date_new y m d = Ok (mkdate y m d)) by now apply date_new_Ok.
    now rewrite En.
Qed.

Lemma strptime_Raise (s : pystr) (e : exn) :
  strptime s = Raise e -> exists msg, e = ValueError msg.
Proof.
  unfold strptime.
  destruct (re_match format_regex s) as [[[[D Mo] Y] r]|]; [|intros [= <-]; eauto].
  destruct (truthy r); [intros [= <-]; eauto|].
  destruct (py_int Y) as [y|]; [|intros [= <-]; eauto].
  destruct (py_int Mo) as [m|]; [|intros [= <-]; eauto].
  destruct (py_int D) as [d|]; [|intros [= <-]; eauto].
  destruct (date_new y m d) as [x|e'] eqn:En; simpl; [discriminate|].
  intros [= <-]. now apply date_new_Raise in En.
Qed.

Lemma Birthday_init_Ok (s : pystr) (b : Birthday) :
  Birthday_init s = Ok b <-> strptime s = Ok (birthday_value b).
Proof.
  unfold Birthday_init. destruct (strptime s) as [dt|e] eqn:E.
  - split.
    + intros [= <-]. reflexivity.
    + intros [= ->]. now destruct b.
  - split; [destruct e; discriminate|discriminate].
Qed.

Lemma Birthday_init_Raise (s : pystr) (e : exn) :
  Birthday_init s = Raise e -> e = ValueError birthday_format_error.
Proof.
  unfold Birthday_init. destruct (strptime s) as [dt|e'] eqn:E; [discriminate|].
  apply strptime_Raise in E as [msg ->]. now intros [= <-].
Qed.

(** *** Every text the specification allows is accepted *)

Lemma ascii_digit_bounds (c : codepoint) :
  is_ascii_digit c = true <-> (48 <= c <= 57)%N.
Proof.
  unfold is_ascii_digit, in_range.
  rewrite andb_true_iff, !N.leb_le. reflexivity.
Qed.

Lemma ascii_digit_cases (c : codepoint) :
  is_ascii_digit c = true ->
  (c = 48 \/ c = 49 \/ c = 50 \/ c = 51 \/ c = 52 \/ c = 53 \/ c = 54
   \/ c = 55 \/ c = 56 \/ c = 57)%N.
Proof. rewrite ascii_digit_bounds. lia. Qed.

Lemma ascii_digit_isdecimal (c : codepoint) :
  is_ascii_digit c = true -> isdecimal_char c = true.
Proof.
  unfold is_ascii_digit, isdecimal_char, in_ranges. intros H.
  cbn [decimal_ranges existsb fst snd]. now rewrite H.
Qed.

Lemma decimal_value_ascii (c : codepoint) :
  is_ascii_digit c = true -> decimal_value c = Some (Z.of_N c - 48)%Z.
Proof.
  intros H. unfold decimal_value, decimal_ranges. cbn [List.find fst snd].
  unfold is_ascii_digit in H. rewrite H. f_equal.
  apply ascii_digit_bounds in H. cbn [fst]. rewrite N.mod_small by lia. lia.
Qed.

Lemma py_int_ascii (c : codepoint) (s : pystr) :
  is_ascii_digit c = true -> py_int (c :: s) = int_digits 0 (c :: s).
Proof.
  intros H. apply ascii_digit_bounds in H. cbn [py_int].
  destruct (N.eqb c SPACE) eqn:E; [|reflexivity].
  apply N.eqb_eq in E. unfold SPACE in E. lia.
Qed.

Lemma int_digits_two (a b : codepoint) :
  is_ascii_digit a = true -> is_ascii_digit b = true ->
  int_digits 0 [a; b] = Some (10 * (Z.of_N a - 48) + (Z.of_N b - 48))%Z.
Proof.
  intros Ha Hb. cbn [int_digits].
  rewrite (decimal_value_ascii a Ha), (decimal_value_ascii b Hb).
  f_equal; lia.
Qed.

Lemma day_text_ascii (a b : codepoint) :
  is_ascii_digit a = true -> is_ascii_digit b = true ->
  (1 <= 10 * (Z.of_N a - 48) + (Z.of_N b - 48) <= 31)%Z ->
  day_text [a; b] = true.
Proof.
  intros Ha Hb.
  apply ascii_digit_cases in Ha. apply ascii_digit_cases in Hb.
  repeat (destruct Ha as [Ha|Ha]); subst a;
    repeat (destruct Hb as [Hb|Hb]); subst b;
    intros H; first [reflexivity | exfalso; lia].
Qed.

Lemma month_text_ascii (a b : codepoint) :
  is_ascii_digit a = true -> is_ascii_digit b = true ->
  (1 <= 10 * (Z.of_N a - 48) + (Z.of_N b - 48) <= 12)%Z ->
  month_text [a; b] = true.
Proof.
  intros Ha Hb.
  apply ascii_digit_cases in Ha. apply ascii_digit_cases in Hb.
  repeat (destruct Ha as [Ha|Ha]); subst a;
    repeat (destruct Hb as [Hb|Hb]); subst b;
    intros H; first [reflexivity | exfalso; lia].
Qed.

Lemma days_in_month_le_31 (y m : Z) : (days_in_month y m <= 31)%Z.
Proof.
  unfold days_in_month.
  destruct ((m =? 2)%Z && is_leap y); [lia|].
  unfold DAYS_IN_MONTH.
  repeat match goal with |- context [match ?x with _ => _ end] => destruct x end;
    lia.
Qed.

Lemma valid_ymd_bounds (y m d : Z) :
  valid_ymd y m d = true ->
  (1 <= y <= 9999 /\ 1 <= m <= 12 /\ 1 <= d <= days_in_month y m)%Z.
Proof.
  unfold valid_ymd, MINYEAR, MAXYEAR.
  rewrite !andb_true_iff, !Z.leb_le. tauto.
Qed.

Lemma spec_birthday_text (s : pystr) :
  spec_birthday_ok s = true ->
  exists y m d, birthday_text s y m d /\ valid_ymd y m d = true.
Proof.
  destruct s as [|d1 [|d2 [|p1 [|m1 [|m2 [|p2 [|y1 [|y2 [|y3 [|y4 [|z s]]]]]]]]]]];
    try discriminate.
  unfold spec_birthday_ok. cbn [forallb].
  rewrite !andb_true_iff, !N.eqb_eq.
  intros [[[(Hd1 & Hd2 & Hm1 & Hm2 & Hy1 & Hy2 & Hy3 & Hy4 & _) ->] ->] H].
  rewrite (int_digits_two m1 m2 Hm1 Hm2), (int_digits_two d1 d2 Hd1 Hd2) in H.
  destruct (int_digits 0 [y1; y2; y3; y4]) as [y|] eqn:Ey; [|discriminate].
  pose proof (valid_ymd_bounds _ _ _ H) as (_ & Hm & Hd).
  pose proof (days_in_month_le_31 y (10 * (Z.of_N m1 - 48) + (Z.of_N m2 - 48))).
  eexists y, _, _. split; [|exact H].
  exists [d1; d2], [m1; m2], [y1; y2; y3; y4]. split; [reflexivity|].
  split; [apply day_text_ascii; auto; lia|].
  split; [apply month_text_ascii; auto|].
  split; [cbn [year_text]; now rewrite !ascii_digit_isdecimal|].
  rewrite !py_int_ascii by assumption.
  rewrite (int_digits_two m1 m2 Hm1 Hm2), (int_digits_two d1 d2 Hd1 Hd2). auto.
Qed.

(** C4, as the specification states it, fails: [1.1.2000], with a one-digit
    day and month, is not of the form DD.MM.YYYY, and [Birthday] accepts it. *)
Lemma Birthday_init_accepts_one_digit_day_and_month :
  Birthday_init (lit "1.1.2000")
  = Ok (mkBirthday (mkdatetime (mkdate 2000 1 1) 0 0 0 0))
  /\ spec_birthday_ok (lit "1.1.2000") = false.
Proof. split; reflexivity. Qed.

(** C4 (amended): [Birthday] construction succeeds exactly on the texts
    [strptime] reads under ['%d.%m.%Y'] as a real date: a day of one or
    two digits (a one-digit day possibly after a zero or a blank), a dot, a
    month of one or two digits, a dot, and a year of four digits, which
    together name a date of the calendar from year 1 on.  Every text
    DD.MM.YYYY of a real date is among them.  On every other string it
    raises [ValueError]. *)
Theorem Birthday_init_succeeds_iff (s : pystr) :
  (forall b, Birthday_init s = Ok b
             <-> exists y m d,
                   birthday_text s y m d /\ valid_ymd y m d = true
                   /\ b = mkBirthday (mkdatetime (mkdate y m d) 0 0 0 0))
  /\ (spec_birthday_ok s = true -> exists b, Birthday_init s = Ok b)
  /\ ((forall b, Birthday_init s <> Ok b) ->
      Birthday_init s = Raise (ValueError birthday_format_error)).
Proof.
  assert (Hiff : forall b, Birthday_init s = Ok b
             <-> exists y m d,
                   birthday_text s y m d /\ valid_ymd y m d = true
                   /\ b = mkBirthday (mkdatetime (mkdate y m d) 0 0 0 0)).
  { intros b. rewrite Birthday_init_Ok, strptime_Ok. split.
    - intros (y & m & d & Ht & Hv & E). exists y, m, d.
      repeat split; auto. destruct b; simpl in E. now subst.
    - intros (y & m & d & Ht & Hv & ->). exists y, m, d. auto. }
  split; [exact Hiff|]. split.
  - intros H. apply spec_birthday_text in H as (y & m & d & Ht & Hv).
    eexists. apply Hiff. exists y, m, d. eauto.
  - intros Hno. destruct (Birthday_init s) as [b|e] eqn:E.
    + exfalso. now apply (Hno b).
    + f_equal. now apply Birthday_init_Raise with (s := s).
Qed.

Lemma Birthday_init_succeeds_iff_witness :
  (exists b, Birthday_init (lit "05.06.1990") = Ok b)
  /\ Birthday_init (lit "31.02.1990") = Raise (ValueError birthday_format_error).
Proof.
  split.
  - apply (Birthday_init_succeeds_iff (lit "05.06.1990")). reflexivity.
  - apply (Birthday_init_succeeds_iff (lit "31.02.1990")).
    intros b. discriminate.
Defined.

(* ================================================================== *)
(** ** Calendar arithmetic *)

Local Open Scope Z_scope.

Lemma month_cases (m : Z) :
  1 <= m <= 12 ->
  m = 1 \/ m = 2 \/ m = 3 \/ m = 4 \/ m = 5 \/ m = 6 \/ m = 7 \/ m = 8
  \/ m = 9 \/ m = 10 \/ m = 11 \/ m = 12.
Proof. lia. Qed.

Ltac each_month Hm :=
  apply month_cases in Hm;
  repeat (destruct Hm as [Hm|Hm]); subst.

Lemma days_in_month_ge_28 (y m : Z) : 1 <= m <= 12 -> 28 <= days_in_month y m.
Proof.
  intros Hm. each_month Hm; unfold days_in_month; simpl;
    try destruct (is_leap y); lia.
Qed.

Lemma days_before_next_month (y m : Z) :
  1 <= m < 12 ->
  days_before_month y (m + 1) = days_before_month y m + days_in_month y m.
Proof.
  intros Hm. assert (Hm' : 1 <= m <= 12) by lia.
  each_month Hm'; try lia;
    unfold days_before_month, days_in_month; simpl; destruct (is_leap y); lia.
Qed.

Lemma days_before_next_year (y : Z) :
  days_before_year (y + 1) = days_before_year y + 365 + (if is_leap y then 1 else 0).
Proof.
  unfold days_before_year, is_leap.
  replace (y + 1 - 1) with y by lia.
  destruct (y mod 4 =? 0) eqn:E4; destruct (y mod 100 =? 0) eqn:E100;
    destruct (y mod 400 =? 0) eqn:E400; simpl;
    rewrite ?Z.eqb_eq, ?Z.eqb_neq in *;
    Z.div_mod_to_equations; lia.
Qed.

Lemma days_before_year_nonneg (y : Z) : 1 <= y -> 0 <= days_before_year y.
Proof. unfold days_before_year. intros H. Z.div_mod_to_equations. lia. Qed.

Lemma days_before_month_nonneg (y m : Z) : 1 <= m <= 12 -> 0 <= days_before_month y m.
Proof.
  intros Hm. each_month Hm; unfold days_before_month; simpl;
    try destruct (is_leap y); lia.
Qed.

Lemma valid_date_bounds (d : date) :
  valid_date d <->
  1 <= year d <= 9999 /\ 1 <= month d <= 12
  /\ 1 <= day d <= days_in_month (year d) (month d).
Proof.
  unfold valid_date, valid_ymd, MINYEAR, MAXYEAR.
  rewrite !andb_true_iff, !Z.leb_le. tauto.
Qed.

Lemma toordinal_pos (d : date) : valid_date d -> 1 <= toordinal d.
Proof.
  rewrite valid_date_bounds. intros (Hy & Hm & Hd).
  unfold toordinal, ymd2ord.
  pose proof (days_before_year_nonneg (year d)).
  pose proof (days_before_month_nonneg (year d) (month d)). lia.
Qed.

Lemma next_day_Ok (d d' : date) :
  valid_date d -> next_day d = Ok d' ->
  valid_date d' /\ toordinal d' = toordinal d + 1.
Proof.
  rewrite !valid_date_bounds. intros (Hy & Hm & Hd). unfold next_day, MAXYEAR.
  destruct (day d <? days_in_month (year d) (month d)) eqn:E1.
  { apply Z.ltb_lt in E1. intros [= <-]. simpl.
    unfold toordinal, ymd2ord; simpl. lia. }
  apply Z.ltb_ge in E1.
  destruct (month d <? 12) eqn:E2.
  { apply Z.ltb_lt in E2. intros [= <-]. simpl.
    pose proof (days_in_month_ge_28 (year d) (month d + 1)).
    unfold toordinal, ymd2ord; simpl.
    rewrite days_before_next_month by lia. lia. }
  apply Z.ltb_ge in E2.
  destruct (year d <? 9999) eqn:E3; [|discriminate].
  apply Z.ltb_lt in E3. intros [= <-]. simpl.
  assert (month d = 12) as Hm12 by lia.
  unfold toordinal, ymd2ord; simpl. rewrite Hm12 in *.
  rewrite days_before_next_year.
  unfold days_before_month, days_in_month in *; simpl in *.
  destruct (is_leap (year d + 1)); destruct (is_leap (year d)); simpl; lia.
Qed.

Lemma next_day_Raise (d : date) (e : exn) :
  valid_date d -> next_day d = Raise e ->
  e = OverflowError /\ toordinal d = MAXORDINAL.
Proof.
  rewrite valid_date_bounds. intros (Hy & Hm & Hd). unfold next_day, MAXYEAR.
  destruct (day d <? days_in_month (year d) (month d)) eqn:E1; [discriminate|].
  destruct (month d <? 12) eqn:E2; [discriminate|].
  destruct (year d <? 9999) eqn:E3; [discriminate|].
  apply Z.ltb_ge in E1, E2, E3. intros [= <-]. split; [reflexivity|].
  destruct d as [y m dd]; simpl in *.
  assert (y = 9999) by lia. assert (m = 12) by lia. subst y m.
  change (days_in_month 9999 12) with 31 in *.
  assert (dd = 31) by lia. subst dd. reflexivity.
Qed.

Lemma days_before_prev_month (y m : Z) :
  1 < m <= 12 ->
  days_before_month y m = days_before_month y (m - 1) + days_in_month y (m - 1).
Proof.
  intros Hm. replace m with ((m - 1) + 1) at 1 by lia.
  apply days_before_next_month. lia.
Qed.

Lemma prev_day_Ok (d d' : date) :
  valid_date d -> prev_day d = Ok d' ->
  valid_date d' /\ toordinal d' = toordinal d - 1.
Proof.
  rewrite !valid_date_bounds. intros (Hy & Hm & Hd). unfold prev_day, MINYEAR.
  destruct (1 <? day d) eqn:E1.
  { apply Z.ltb_lt in E1. intros [= <-]. simpl.
    unfold toordinal, ymd2ord; simpl. lia. }
  apply Z.ltb_ge in E1.
  destruct (1 <? month d) eqn:E2.
  { apply Z.ltb_lt in E2. intros [= <-]. simpl.
    pose proof (days_in_month_ge_28 (year d) (month d - 1)).
    unfold toordinal, ymd2ord; simpl.
    rewrite (days_before_prev_month (year d) (month d)) by lia. lia. }
  apply Z.ltb_ge in E2.
  destruct (1 <? year d) eqn:E3; [|discriminate].
  apply Z.ltb_lt in E3. intros [= <-]. simpl.
  assert (month d = 1) as Hm1 by lia. assert (day d = 1) as Hd1 by lia.
  unfold toordinal, ymd2ord; simpl. rewrite Hm1, Hd1 in *.
  pose proof (days_before_next_year (year d - 1)) as Hy1.
  replace (year d - 1 + 1) with (year d) in Hy1 by lia.
  unfold days_before_month, days_in_month in *; simpl in *.
  destruct (is_leap (year d - 1)); destruct (is_leap (year d)); simpl; lia.
Qed.

Lemma prev_day_Raise (d : date) (e : exn) :
  valid_date d -> prev_day d = Raise e -> e = OverflowError /\ toordinal d = 1.
Proof.
  rewrite valid_date_bounds. intros (Hy & Hm & Hd). unfold prev_day, MINYEAR.
  destruct (1 <? day d) eqn:E1; [discriminate|].
  destruct (1 <? month d) eqn:E2; [discriminate|].
  destruct (1 <? year d) eqn:E3; [discriminate|].
  apply Z.ltb_ge in E1, E2, E3. intros [= <-]. split; [reflexivity|].
  destruct d as [y m dd]; simpl in *.
  assert (y = 1) by lia. assert (m = 1) by lia. assert (dd = 1) by lia.
  subst. reflexivity.
Qed.

Lemma step_next_Ok (n : nat) (d d' : date) :
  valid_date d -> step_days next_day n d = Ok d' ->
  valid_date d' /\ toordinal d' = toordinal d + Z.of_nat n.
Proof.
  revert d. induction n as [|n IH]; intros d Hv; cbn [step_days].
  - intros [= <-]. split; [exact Hv|lia].
  - destruct (next_day d) as [d1|e] eqn:E; simpl; [|discriminate].
    apply next_day_Ok in E as [Hv1 Ho]; [|exact Hv].
    intros H. apply IH in H as [Hv' Ho']; [|exact Hv1]. split; [exact Hv'|lia].
Qed.

Lemma step_prev_Ok (n : nat) (d d' : date) :
  valid_date d -> step_days prev_day n d = Ok d' ->
  valid_date d' /\ toordinal d' = toordinal d - Z.of_nat n.
Proof.
  revert d. induction n as [|n IH]; intros d Hv; cbn [step_days].
  - intros [= <-]. split; [exact Hv|lia].
  - destruct (prev_day d) as [d1|e] eqn:E; simpl; [|discriminate].
    apply prev_day_Ok in E as [Hv1 Ho]; [|exact Hv].
    intros H. apply IH in H as [Hv' Ho']; [|exact Hv1]. split; [exact Hv'|lia].
Qed.

Lemma step_next_total (n : nat) (d : date) :
  valid_date d -> toordinal d + Z.of_nat n <= MAXORDINAL ->
  exists d', step_days next_day n d = Ok d'.
Proof.
  revert d. induction n as [|n IH]; intros d Hv Hle; cbn [step_days].
  - eauto.
  - destruct (next_day d) as [d1|e] eqn:E; simpl.
    + apply next_day_Ok in E as [Hv1 Ho]; [|exact Hv]. apply IH; [exact Hv1|lia].
    + apply next_day_Raise in E as [_ Ho]; [|exact Hv]. lia.
Qed.

Lemma step_next_Raise (n : nat) (d : date) (e : exn) :
  valid_date d -> step_days next_day n d = Raise e ->
  e = OverflowError /\ MAXORDINAL < toordinal d + Z.of_nat n.
Proof.
  revert d. induction n as [|n IH]; intros d Hv; cbn [step_days].
  - discriminate.
  - destruct (next_day d) as [d1|e1] eqn:E; simpl.
    + apply next_day_Ok in E as [Hv1 Ho]; [|exact Hv].
      intros H. apply IH in H as [-> H]; [|exact Hv1]. split; [reflexivity|lia].
    + apply next_day_Raise in E as [-> Ho]; [|exact Hv].
      intros [= <-]. split; [reflexivity|lia].
Qed.

Lemma step_prev_total (n : nat) (d : date) :
  valid_date d -> 1 <= toordinal d - Z.of_nat n ->
  exists d', step_days prev_day n d = Ok d'.
Proof.
  revert d. induction n as [|n IH]; intros d Hv Hle; cbn [step_days].
  - eauto.
  - destruct (prev_day d) as [d1|e] eqn:E; simpl.
    + apply prev_day_Ok in E as [Hv1 Ho]; [|exact Hv]. apply IH; [exact Hv1|lia].
    + apply prev_day_Raise in E as [_ Ho]; [|exact Hv]. lia.
Qed.

Lemma weekday_range (d : date) : 0 <= weekday d <= 6.
Proof. unfold weekday. pose proof (Z.mod_pos_bound (toordinal d + 6) 7). lia. Qed.

(** The Monday that starts the week of [today] always exists: it is
    [weekday today] days back. *)
Lemma week_start_exists (today : date) :
  valid_date today ->
  exists start,
    add_days today (- weekday today) = Ok start
    /\ valid_date start
    /\ toordinal start = toordinal today - weekday today
    /\ weekday start = 0.
Proof.
  intros Hv. pose proof (weekday_range today) as Hw.
  pose proof (toordinal_pos today Hv) as Hp.
  assert (Hs : 1 <= toordinal today - weekday today).
  { unfold weekday in *. Z.div_mod_to_equations. lia. }
  assert (Hstep : exists start,
             step_days prev_day (Z.to_nat (weekday today)) today = Ok start).
  { apply step_prev_total; [exact Hv|lia]. }
  destruct Hstep as [start Hstart]. exists start.
  pose proof (step_prev_Ok _ _ _ Hv Hstart) as [Hv' Ho].
  rewrite Z2Nat.id in Ho by lia.
  assert (Hadd : add_days today (- weekday today) = Ok start).
  { unfold add_days. destruct (0 <=? - weekday today) eqn:E.
    - apply Z.leb_le in E. assert (H0 : weekday today = 0) by lia.
      rewrite H0 in *. simpl in *. exact Hstart.
    - now rewrite Z.opp_involutive. }
  repeat split; auto.
  unfold weekday in *. rewrite Ho. Z.div_mod_to_equations. lia.
Qed.

(** The end of the week, when the code gets one: the Sunday six days after
    the Monday on or before [today]. *)
Lemma week_end_Ok (today start end_ : date) :
  valid_date today ->
  add_days today (- weekday today) = Ok start ->
  add_days start 6 = Ok end_ ->
  toordinal end_ = toordinal today - weekday today + 6
  /\ weekday start = 0 /\ weekday end_ = 6
  /\ toordinal start <= toordinal today <= toordinal end_.
Proof.
  intros Hv Hs He.
  destruct (week_start_exists today Hv) as (s & Hs' & Hvs & Hos & Hws).
  rewrite Hs in Hs'. injection Hs' as <-.
  change (add_days start 6) with (step_days next_day 6%nat start) in He.
  apply step_next_Ok in He as [Hve Hoe]; [|exact Hvs].
  pose proof (weekday_range today).
  change (Z.of_nat 6) with 6 in Hoe.
  repeat split; try lia; auto.
  unfold weekday in *. rewrite Hoe. Z.div_mod_to_equations. lia.
Qed.

(** The week's end exists unless it falls after [date.max]. *)
Lemma week_end_exists (today : date) :
  valid_date today ->
  toordinal today - weekday today + 6 <= MAXORDINAL ->
  exists start end_,
    add_days today (- weekday today) = Ok start /\ add_days start 6 = Ok end_.
Proof.
  intros Hv Hle.
  destruct (week_start_exists today Hv) as (s & Hs & Hvs & Hos & Hws).
  destruct (step_next_total 6 s Hvs) as [e He].
  { change (Z.of_nat 6) with 6. lia. }
  exists s, e. split; [exact Hs|exact He].
Qed.

(* ================================================================== *)
(** ** The weekly birthday query on books where every record has a birthday *)

Lemma dict_get_In {V} (d : PyDict.dict V) (k : pystr) (v : V) :
  PyDict.wf d -> (In (k, v) d <-> PyDict.get k d = Some v).
Proof.
  unfold PyDict.wf, PyDict.keys.
  induction d as [|[k' v'] d IH]; simpl; intros Hwf.
  - split; [tauto|discriminate].
  - inversion Hwf as [|? ? Hnin Hwf']; subst.
    destruct (str_eqb k k') eqn:E.
    + apply str_eqb_eq in E; subst k'. split.
      * intros [[= ->]|Hin]; [reflexivity|].
        exfalso. apply Hnin. apply in_map_iff. exists (k, v). auto.
      * intros [= ->]. now left.
    + apply str_eqb_neq in E. rewrite <- (IH Hwf'). split.
      * intros [[= -> ->]|Hin]; [congruence|exact Hin].
      * auto.
Qed.

Lemma listed_append (d : PyDict.dict (list pystr)) (day0 name0 day name : pystr) :
  listed (defaultdict_append day0 name0 d) day name
  <-> listed d day name \/ (day = day0 /\ name = name0).
Proof.
  unfold listed, defaultdict_append.
  destruct (str_eqb day day0) eqn:E.
  - apply str_eqb_eq in E; subst day0.
    destruct (PyDict.get day d) as [names0|] eqn:G;
      setoid_rewrite dict_get_set_same.
    + split.
      * intros (names & [= <-] & Hin). apply in_app_or in Hin as [Hin|[<-|[]]].
        -- left. eauto.
        -- right. auto.
      * intros [(names & [= <-] & Hin)|[_ ->]]; eexists; split; eauto;
          apply in_or_app; [left|right; left]; auto.
    + split.
      * intros (names & [= <-] & [<-|[]]). right. auto.
      * intros [(names & Hn & _)|[_ ->]]; [discriminate|].
        eexists; split; eauto. now left.
  - apply str_eqb_neq in E.
    destruct (PyDict.get day0 d) as [names0|] eqn:G;
      setoid_rewrite (dict_get_set_other day0 day _ d E);
      split; auto; intros [H|[H _]]; auto; contradiction.
Qed.

Lemma window_test (delta : Z) :
  (delta <=? 5) && (delta >? -2) = true <-> -2 < delta <= 5.
Proof. rewrite andb_true_iff, Z.leb_le, Z.gtb_ltb, Z.ltb_lt. tauto. Qed.

Lemma bucket_is_spec_bucket (d : date) : bucket d = spec_bucket d.
Proof.
  pose proof (weekday_range d) as Hw.
  assert (H : weekday d = 0 \/ weekday d = 1 \/ weekday d = 2 \/ weekday d = 3
              \/ weekday d = 4 \/ weekday d = 5 \/ weekday d = 6) by lia.
  unfold bucket, spec_bucket, strftime_A.
  repeat (destruct H as [H|H]); rewrite H; reflexivity.
Qed.

Lemma birthdays_loop_Ok (today end_ : date) (items : list (pystr * record))
    (acc bd : PyDict.dict (list pystr)) :
  birthdays_loop today end_ items acc = Ok bd ->
  forall day name,
    listed bd day name
    <-> listed acc day name
        \/ exists r bty,
             In (name, r) items /\ in_window today end_ r bty /\ day = bucket bty.
Proof.
  revert acc. induction items as [|[n r] items IH]; intros acc; cbn [birthdays_loop].
  - intros [= <-] day name. split; [auto|].
    intros [H|(r & bty & [] & _)]. exact H.
  - destruct (birthday r) as [b|] eqn:Hb; simpl; [|discriminate].
    destruct (replace_year (dt_date (birthday_value b)) (year today))
      as [bty|e] eqn:Hr; simpl; [|discriminate].
    unfold sub_days.
    destruct ((toordinal bty - toordinal end_ <=? 5)
              && (toordinal bty - toordinal end_ >? -2)) eqn:Hw;
      intros H day name; rewrite (IH _ H day name).
    + apply window_test in Hw. rewrite listed_append. split.
      * intros [[Hl|[-> ->]]|(r' & bty' & Hin & Hwin & Hd)].
        -- auto.
        -- right. exists r, bty. split; [now left|]. split; [|reflexivity].
           exists b. auto.
        -- right. exists r', bty'. split; [now right|]. auto.
      * intros [Hl|(r' & bty' & [[= <- <-]|Hin] & Hwin & Hd)].
        -- auto.
        -- destruct Hwin as (b' & Hb' & Hr' & _).
           rewrite Hb in Hb'. injection Hb' as <-.
           rewrite Hr in Hr'. injection Hr' as <-. auto.
        -- right. exists r', bty'. auto.
    + split.
      * intros [Hl|(r' & bty' & Hin & Hwin & Hd)]; [auto|].
        right. exists r', bty'. split; [now right|]. auto.
      * intros [Hl|(r' & bty' & [[= <- <-]|Hin] & Hwin & Hd)].
        -- auto.
        -- destruct Hwin as (b' & Hb' & Hr' & Hw').
           rewrite Hb in Hb'. injection Hb' as <-.
           rewrite Hr in Hr'. injection Hr' as <-.
           apply window_test in Hw'. congruence.
        -- right. exists r', bty'. auto.
Qed.

Lemma birthdays_loop_total (today end_ : date) (items : list (pystr * record))
    (acc : PyDict.dict (list pystr)) :
  all_birthdays_project today items ->
  exists bd, birthdays_loop today end_ items acc = Ok bd.
Proof.
  unfold all_birthdays_project. revert acc.
  induction items as [|[n r] items IH]; intros acc Hall; cbn [birthdays_loop].
  - eauto.
  - inversion Hall as [|? ? (b & bty & Hb & Hr) Hall']; subst. simpl in Hb.
    rewrite Hb. simpl. rewrite Hr. simpl.
    destruct ((sub_days bty end_ <=? 5) && (sub_days bty end_ >? -2)); auto.
Qed.

(** The part of C1 that the code does meet.  When every record has a birthday that exists in the
    current year, the query returns a mapping; and whenever it returns one,
    a contact is listed under a day exactly when its [delta_days], counted
    from the Sunday that ends the week of [today], satisfies
    [-2 < delta_days <= 5] and the day is Monday for a birthday on Saturday
    or Sunday and the birthday's weekday name otherwise. *)
Theorem birthdays_window_rule (today : date) (book : AddressBook) :
  valid_date today -> PyDict.wf book ->
  (toordinal today - weekday today + 6 <= MAXORDINAL ->
   all_birthdays_project today book ->
   exists bd, get_birthdays_per_week today book = Ok bd)
  /\ (forall bd,
        get_birthdays_per_week today book = Ok bd ->
        exists week_end,
          toordinal week_end = toordinal today - weekday today + 6
          /\ weekday week_end = 6
          /\ forall day name,
               listed bd day name
               <-> exists r bty,
                     find book name = Some r
                     /\ in_window today week_end r bty
                     /\ day = spec_bucket bty).
Proof.
  intros Hv Hwf. unfold get_birthdays_per_week. split.
  - intros Hle Hall.
    destruct (week_end_exists today Hv Hle) as (s & e & Hs & He).
    rewrite Hs. simpl. rewrite He. simpl. now apply birthdays_loop_total.
  - intros bd.
    destruct (add_days today (- weekday today)) as [s|] eqn:Hs; simpl; [|discriminate].
    destruct (add_days s 6) as [e|] eqn:He; simpl; [|discriminate].
    destruct (week_end_Ok today s e Hv Hs He) as (Ho & _ & Hsun & _).
    intros H. exists e. split; [exact Ho|]. split; [exact Hsun|].
    intros day name. rewrite (birthdays_loop_Ok _ _ _ _ _ H day name).
    unfold listed at 1. simpl. split.
    + intros [(names & [=] & _)|(r & bty & Hin & Hwin & ->)].
      exists r, bty. rewrite <- bucket_is_spec_bucket.
      split; [now apply dict_get_In|auto].
    + intros (r & bty & Hf & Hwin & ->). right. exists r, bty.
      rewrite <- bucket_is_spec_bucket. split; [now apply dict_get_In|auto].
Qed.

(* ================================================================== *)
(** ** Which handlers always answer (C2, continued) *)

Lemma input_error_returns (func : M pystr) (book : AddressBook) :
  (forall e, fst (func book) = Raise e -> caught e = true) ->
  exists s, fst (input_error func book) = Ok (Str s).
Proof.
  unfold input_error. destruct (func book) as [[s|e] book']; simpl; intros H.
  - eauto.
  - specialize (H e eq_refl). destruct e; try discriminate H; simpl; eauto.
    replace (truthy VErrorBirthday) with true by reflexivity.
    rewrite orb_true_r. simpl. eauto.
Qed.

Lemma unpack2_caught (args : list pystr) (e : exn) :
  unpack2 args = Raise e -> caught e = true.
Proof.
  destruct args as [|a [|b [|c rest]]]; simpl; try discriminate;
    intros [= <-]; reflexivity.
Qed.

Lemma unpack1_caught (args : list pystr) (e : exn) :
  unpack1 args = Raise e -> caught e = true.
Proof.
  destruct args as [|a [|b rest]]; simpl; try discriminate;
    intros [= <-]; reflexivity.
Qed.

Lemma Phone_init_caught (s : pystr) (e : exn) :
  Phone_init s = Raise e -> caught e = true.
Proof.
  unfold Phone_init. destruct (negb _); [|discriminate]. now intros [= <-].
Qed.

Lemma Birthday_init_caught (s : pystr) (e : exn) :
  Birthday_init s = Raise e -> caught e = true.
Proof. intros H. apply Birthday_init_Raise in H. now subst. Qed.

(** Every handler but the weekly birthday query answers with a string, for
    every argument list and every book. *)
Theorem other_handlers_return_a_string
    (today : date) (c : command) (args : list pystr) (book : AddressBook) :
  c <> CmdBirthdays -> exists s, fst (run today c args book) = Ok (Str s).
Proof.
  intros Hc. destruct c; try contradiction; simpl;
    apply input_error_returns; run_body; intros e.
  - destruct (unpack2 args) as [[a b]|e'] eqn:E; simpl.
    + unfold add_phone. destruct (Phone_init b) as [p|e'] eqn:Ep; simpl;
        [discriminate|]. intros [= <-]. eapply Phone_init_caught, Ep.
    + intros [= <-]. eapply unpack2_caught, E.
  - destruct (unpack2 args) as [[a b]|e'] eqn:E; simpl.
    + destruct (find book a) as [r|]; simpl; [|discriminate].
      unfold first_phone. destruct (phones r); simpl; [|discriminate].
      now intros [= <-].
    + intros [= <-]. eapply unpack2_caught, E.
  - destruct (unpack1 args) as [a|e'] eqn:E; simpl.
    + destruct (find book a); discriminate.
    + intros [= <-]. eapply unpack1_caught, E.
  - destruct book; discriminate.
  - destruct (unpack2 args) as [[a b]|e'] eqn:E; simpl.
    + destruct (find book a) as [r|]; simpl; [|discriminate].
      unfold record_add_birthday.
      destruct (Birthday_init b) as [x|e'] eqn:Eb; simpl; [discriminate|].
      intros [= <-]. eapply Birthday_init_caught, Eb.
    + intros [= <-]. eapply unpack2_caught, E.
  - destruct (unpack1 args) as [a|e'] eqn:E; simpl.
    + destruct (find book a) as [r|]; [destruct (birthday r)|]; discriminate.
    + intros [= <-]. eapply unpack1_caught, E.
Qed.

(** The weekly query lets an [AttributeError] escape on every book whose
    first record has no birthday, on every day whose week ends in range. *)
Theorem birthdays_handler_escapes_without_birthday
    (today : date) (n : pystr) (r : record) (rest : AddressBook) :
  valid_date today -> toordinal today - weekday today + 6 <= MAXORDINAL ->
  birthday r = None ->
  show_birthdays_next_week today ((n, r) :: rest)
  = (Raise AttributeError, (n, r) :: rest).
Proof.
  intros Hv Hle Hb.
  destruct (week_end_exists today Hv Hle) as (s & e & Hs & He).
  unfold show_birthdays_next_week, input_error. run_body.
  unfold get_birthdays_per_week. rewrite Hs. simpl. rewrite He. simpl.
  rewrite Hb. reflexivity.
Qed.

(* ================================================================== *)
(** ** The library models on sample inputs *)

Example str_datetime_1990 :
  datetime_str (mkdatetime (mkdate 1990 6 5) 0 0 0 0) = lit "1990-06-05 00:00:00".
Proof. reflexivity. Qed.

Example ordinal_of_date_max : toordinal (mkdate 9999 12 31) = MAXORDINAL.
Proof. reflexivity. Qed.

Example ordinal_of_date_min : toordinal (mkdate 1 1 1) = 1.
Proof. reflexivity. Qed.

Example weekday_name_2024_06_03 : strftime_A monday_2024_06_03 = lit "Monday".
Proof. reflexivity. Qed.

Example add_days_past_date_max : add_days (mkdate 9999 12 27) 6 = Raise OverflowError.
Proof. reflexivity. Qed.

Example add_days_over_leap_day : add_days (mkdate 2024 2 26) 6 = Ok (mkdate 2024 3 3).
Proof. reflexivity. Qed.

Example leap_day_in_common_year :
  replace_year (mkdate 2000 2 29) 2023
  = Raise (ValueError (lit "day is out of range for month")).
Proof. reflexivity. Qed.

Example strptime_blank_padded_day :
  strptime (lit " 1.1.2000") = Ok (mkdatetime (mkdate 2000 1 1) 0 0 0 0).
Proof. reflexivity. Qed.

Example strptime_impossible_day :
  strptime (lit "29.02.2001")
  = Raise (ValueError (lit "day is out of range for month")).
Proof. reflexivity. Qed.

Example strptime_year_zero :
  strptime (lit "01.01.0000") = Raise (ValueError (lit "year 0 is out of range")).
Proof. reflexivity. Qed.

Example strptime_trailing_text :
  strptime (lit "01.1.20000")
  = Raise (ValueError (lit "unconverted data remains: 0")).
Proof. reflexivity. Qed.

Example strptime_day_out_of_pattern :
  strptime (lit "32.01.2000")
  = Raise (ValueError (lit "time data does not match format")).
Proof. reflexivity. Qed.

Example strptime_arabic_indic_digits :
  strptime [49; 1634; 46; 48; 50; 46; 1634; 1632; 1632; 1632]%N
  = Ok (mkdatetime (mkdate 2000 2 12) 0 0 0 0).
Proof. reflexivity. Qed.

(** The session of the specification: add, show, change, show. *)
Example session_alice :
  let b0 : AddressBook := [] in
  let '(o1, b1) := add_contact [alice; lit "1234567890"] b0 in
  let '(o2, b2) := show_phone [alice] b1 in
  let '(o3, b3) := change_contact [alice; lit "0987654321"] b2 in
  let '(o4, b4) := show_phone [alice] b3 in
  let '(o5, b5) := show_phone [bob] b4 in
  [o1; o2; o3; o4; o5]
  = [Ok (Str (lit "Contact added.")); Ok (Str (lit "1234567890"));
     Ok (Str (lit "Contact updated.")); Ok (Str (lit "0987654321"));
     Ok (Str (lit "Not found."))].
Proof. reflexivity. Qed.

(** With a birthday for every contact the weekly query answers. *)
Example birthdays_week_of_2024_06_03 :
  let book := snd (add_birthday [alice; lit "10.06.1999"] book_alice_bob) in
  fst (show_birthdays_next_week monday_2024_06_03 book)
  = Ok (Str (lit "Monday: alice, bob")).
Proof. reflexivity. Qed.

(* ================================================================== *)
(** ** Phones of a record *)

Lemma find_phone_from_bounds (ps : list Phone) (number : pystr) (i : nat) :
  In number (map phone_value ps) ->
  exists j, find_phone_from i ps number = Some j
            /\ (i <= j < i + List.length ps)%nat.
Proof.
  intros Hin. pose proof (find_phone_from_first ps number number i) as H.
  destruct (find_phone_from i ps number) as [j|]; [|contradiction].
  destruct H as (l1 & p & l2 & -> & _ & _ & -> & _).
  exists (i + List.length l1)%nat. split; [reflexivity|].
  rewrite length_app. simpl. lia.
Qed.

(** [find_phone] gives the position of the first phone whose value is the
    number asked for, and nothing exactly when no phone has that value. *)
Theorem find_phone_first_position (r : record) (number : pystr) :
  match find_phone r number with
  | Some i =>
      exists p,
        nth_error (phones r) i = Some p
        /\ phone_value p = number
        /\ forall j q, (j < i)%nat -> nth_error (phones r) j = Some q ->
                       phone_value q <> number
  | None => ~ In number (map phone_value (phones r))
  end.
Proof.
  unfold find_phone.
  pose proof (find_phone_from_first (phones r) number number 0) as H.
  destruct (find_phone_from 0 (phones r) number) as [i|]; [|exact H].
  destruct H as (l1 & p & l2 & Hps & Hp & Hnin & Hi & _). simpl in Hi. subst i.
  exists p. rewrite Hps. split; [|split; [exact Hp|]].
  - rewrite nth_error_app2 by lia. now rewrite Nat.sub_diag.
  - intros j q Hj Hq. rewrite nth_error_app1 in Hq by exact Hj.
    apply nth_error_In in Hq. intros E. apply Hnin. rewrite <- E.
    now apply in_map.
Qed.

(** [add_phone] with a number that passes the check of [Phone] puts it
    last in the list, keeps what was there (duplicates included), and
    [find_phone] then finds that number; with any other text it raises
    [ValueError]. *)
Theorem add_phone_appends (r : record) (number : pystr) :
  (valid_phone number = true ->
   add_phone r number
   = Ok (mkRecord (name r) (birthday r) (phones r ++ [mkPhone number]))
   /\ exists i,
        find_phone (mkRecord (name r) (birthday r) (phones r ++ [mkPhone number]))
                   number = Some i
        /\ (i <= List.length (phones r))%nat)
  /\ (valid_phone number = false ->
      add_phone r number = Raise (ValueError phone_format_error)).
Proof.
  unfold add_phone, Phone_init, valid_phone. split; intros H; rewrite H; simpl.
  - split; [reflexivity|]. unfold find_phone. simpl.
    destruct (find_phone_from_bounds (phones r ++ [mkPhone number]) number 0)
      as (j & Hj & Hb).
    + rewrite map_app. apply in_or_app. right. now left.
    + exists j. split; [exact Hj|]. rewrite length_app in Hb. simpl in Hb. lia.
  - reflexivity.
Qed.

Lemma add_phone_appends_witness :
  let r := mkRecord (mkName alice) None [mkPhone (lit "1111111111")] in
  add_phone r (lit "1111111111")
  = Ok (mkRecord (mkName alice) None
          [mkPhone (lit "1111111111"); mkPhone (lit "1111111111")])
  /\ add_phone r (lit "111") = Raise (ValueError phone_format_error).
Proof.
  intros r. split.
  - apply (add_phone_appends r (lit "1111111111")). reflexivity.
  - apply (add_phone_appends r (lit "111")). reflexivity.
Defined.

(* ================================================================== *)
(** ** The address book as a dictionary *)

Lemma dict_get_None {V} (k : pystr) (d : PyDict.dict V) :
  PyDict.get k d = None <-> ~ In k (PyDict.keys d).
Proof.
  induction d as [|[k' v'] d IH]; simpl.
  - tauto.
  - destruct (str_eqb k k') eqn:E.
    + apply str_eqb_eq in E. split; [discriminate|]. intros H. exfalso. auto.
    + apply str_eqb_neq in E. rewrite IH. split.
      * intros H [H'|H']; [congruence|auto].
      * auto.
Qed.

Lemma dict_keys_set_absent {V} (k : pystr) (v : V) (d : PyDict.dict V) :
  PyDict.get k d = None -> PyDict.keys (PyDict.set k v d) = PyDict.keys d ++ [k].
Proof.
  induction d as [|[k' v'] d IH]; simpl; [reflexivity|].
  destruct (str_eqb k k') eqn:E; [discriminate|].
  intros H. simpl. now rewrite (IH H).
Qed.

Lemma dict_get_del_other {V} (k k0 : pystr) (d : PyDict.dict V) :
  k0 <> k -> PyDict.get k0 (PyDict.del k d) = PyDict.get k0 d.
Proof.
  intros Hne. induction d as [|[k' v'] d IH]; simpl; [reflexivity|].
  destruct (str_eqb k k') eqn:E; simpl.
  - apply str_eqb_eq in E; subst k'. apply str_eqb_neq in Hne. now rewrite Hne.
  - now rewrite IH.
Qed.

Lemma dict_keys_del_incl {V} (k x : pystr) (d : PyDict.dict V) :
  In x (PyDict.keys (PyDict.del k d)) -> In x (PyDict.keys d).
Proof.
  induction d as [|[k' v'] d IH]; simpl; [tauto|].
  destruct (str_eqb k k'); simpl; [auto|]. intros [H|H]; auto.
Qed.

Lemma dict_wf_del {V} (k : pystr) (d : PyDict.dict V) :
  PyDict.wf d -> PyDict.wf (PyDict.del k d).
Proof.
  unfold PyDict.wf. induction d as [|[k' v'] d IH]; simpl; intros H; [exact H|].
  inversion H as [|? ? Hnin Hd]; subst.
  destruct (str_eqb k k'); simpl; [exact Hd|].
  constructor; [|auto]. intros Hin. apply Hnin.
  now apply dict_keys_del_incl with (k := k).
Qed.

Lemma dict_get_del_same {V} (k : pystr) (d : PyDict.dict V) :
  PyDict.wf d -> PyDict.get k (PyDict.del k d) = None.
Proof.
  unfold PyDict.wf. induction d as [|[k' v'] d IH]; simpl; intros H; [reflexivity|].
  inversion H as [|? ? Hnin Hd]; subst.
  destruct (str_eqb k k') eqn:E; simpl.
  - apply str_eqb_eq in E; subst k'. now apply dict_get_None.
  - rewrite E. auto.
Qed.

Lemma dict_wf_set {V} (k : pystr) (v : V) (d : PyDict.dict V) :
  PyDict.wf d -> PyDict.wf (PyDict.set k v d).
Proof.
  intros H. unfold PyDict.wf.
  destruct (PyDict.get k d) as [v0|] eqn:G.
  - now rewrite (dict_keys_set_present k v v0 d G).
  - rewrite (dict_keys_set_absent k v d G).
    apply NoDup_app; [exact H|repeat constructor; auto|].
    intros x Hx [<-|[]]. now apply dict_get_None in G.
Qed.

(** [add_record] then [find] under the record's name gives the record
    back; the other names keep what they had; a name already in the book
    keeps its place in the order of the book and a new one goes last. *)
Theorem add_record_then_find (book : AddressBook) (r : record) :
  find (add_record book r) (name_value (name r)) = Some r
  /\ (forall k, k <> name_value (name r) ->
                find (add_record book r) k = find book k)
  /\ PyDict.keys (add_record book r)
     = match find book (name_value (name r)) with
       | Some _ => PyDict.keys book
       | None => PyDict.keys book ++ [name_value (name r)]
       end.
Proof.
  unfold find, add_record. split; [apply dict_get_set_same|]. split.
  - intros k Hk. now apply dict_get_set_other.
  - destruct (PyDict.get (name_value (name r)) book) as [r0|] eqn:G.
    + exact (dict_keys_set_present _ r r0 book G).
    + now apply dict_keys_set_absent.
Qed.

(** [delete] takes the contact out: [find] no longer finds the name, the
    other contacts stay, and deleting a name that is not in the book
    changes nothing. *)
Theorem delete_then_find (book : AddressBook) (n : pystr) :
  PyDict.wf book ->
  find (delete book n) n = None
  /\ (forall k, k <> n -> find (delete book n) k = find book k)
  /\ PyDict.wf (delete book n)
  /\ (find book n = None -> delete book n = book).
Proof.
  intros Hwf. unfold find, delete.
  destruct (PyDict.get n book) as [r|] eqn:G.
  - split; [now apply dict_get_del_same|]. split.
    + intros k Hk. now apply dict_get_del_other.
    + split; [now apply dict_wf_del|discriminate].
  - repeat split; auto.
Qed.

Lemma delete_then_find_witness :
  find (delete book_alice_bob alice) alice = None
  /\ find (delete book_alice_bob alice) bob = find book_alice_bob bob
  /\ delete book_alice_bob (lit "carol") = book_alice_bob.
Proof.
  assert (Hwf : PyDict.wf book_alice_bob).
  { unfold PyDict.wf. vm_compute. repeat constructor; simpl; intuition discriminate. }
  destruct (delete_then_find book_alice_bob alice Hwf) as (H1 & H2 & _ & _).
  destruct (delete_then_find book_alice_bob (lit "carol") Hwf) as (_ & _ & _ & H4).
  split; [exact H1|]. split.
  - apply H2. discriminate.
  - apply H4. reflexivity.
Defined.

(* ================================================================== *)
(** ** What the handlers answer *)

Lemma add_contact_valid (book : AddressBook) (n p : pystr) :
  valid_phone p = true ->
  add_contact [n; p] book
  = (Ok (Str (lit "Contact added.")),
     PyDict.set n (mkRecord (mkName n) None [mkPhone p]) book).
Proof.
  intros H. apply input_error_Ok. run_body.
  unfold add_phone, Phone_init. unfold valid_phone in H. rewrite H. reflexivity.
Qed.

Lemma show_phone_found (book : AddressBook) (n : pystr) (r : record) :
  find book n = Some r ->
  show_phone [n] book
  = (Ok (Str (join (lit ", ") (map Phone_str (phones r)))), book).
Proof. intros H. apply input_error_Ok. run_body. now rewrite H. Qed.

(** [add] with a name and a phone that passes the check answers
    "Contact added." and [phone] for that name then answers exactly that
    phone; with a phone that fails the check, [add] answers
    "Give the correct data, please" and the book stays as it was. *)
Theorem add_then_show_phone (book : AddressBook) (n p : pystr) :
  (valid_phone p = true ->
   fst (add_contact [n; p] book) = Ok (Str (lit "Contact added."))
   /\ fst (show_phone [n] (snd (add_contact [n; p] book))) = Ok (Str p))
  /\ (valid_phone p = false ->
      add_contact [n; p] book
      = (Ok (Str (lit "Give the correct data, please")), book)).
Proof.
  split; intros H.
  - rewrite (add_contact_valid book n p H). simpl. split; [reflexivity|].
    rewrite (show_phone_found _ n (mkRecord (mkName n) None [mkPhone p]));
      [reflexivity|].
    unfold find. apply dict_get_set_same.
  - apply input_error_ValueError with (msg := phone_format_error). run_body.
    unfold add_phone, Phone_init. unfold valid_phone in H. rewrite H. reflexivity.
Qed.

Lemma add_then_show_phone_witness :
  (fst (add_contact [alice; lit "1234567890"] book_alice_bob)
   = Ok (Str (lit "Contact added."))
   /\ fst (show_phone [alice]
             (snd (add_contact [alice; lit "1234567890"] book_alice_bob)))
      = Ok (Str (lit "1234567890")))
  /\ add_contact [alice; lit "12-34"] book_alice_bob
     = (Ok (Str (lit "Give the correct data, please")), book_alice_bob).
Proof.
  split.
  - apply (add_then_show_phone book_alice_bob alice (lit "1234567890")). reflexivity.
  - apply (add_then_show_phone book_alice_bob alice (lit "12-34")). reflexivity.
Defined.

Lemma edit_first_phone (r : record) (p0 : Phone) (ps : list Phone) (new : pystr) :
  phones r = p0 :: ps ->
  edit_phone r (phone_value p0) new
  = (true, mkRecord (name r) (birthday r) (mkPhone new :: ps)).
Proof.
  intros H. unfold edit_phone, find_phone. rewrite H. simpl.
  now rewrite str_eqb_refl.
Qed.

(** [change] for a contact of the book with at least one phone answers
    "Contact updated." and puts the new text, whatever it is, in the place
    of the contact's first phone: the text is not checked, the contact's
    other phones, name and birthday stay, and [phone] then shows the new
    text first. *)
Theorem change_contact_replaces_first_phone
    (book : AddressBook) (n new : pystr) (r : record) (p0 : Phone) (ps : list Phone) :
  find book n = Some r -> phones r = p0 :: ps ->
  let r' := mkRecord (name r) (birthday r) (mkPhone new :: ps) in
  change_contact [n; new] book
  = (Ok (Str (lit "Contact updated.")), PyDict.set n r' book)
  /\ show_phone [n] (PyDict.set n r' book)
     = (Ok (Str (join (lit ", ") (new :: map phone_value ps))),
        PyDict.set n r' book).
Proof.
  intros Hf Hp r'. split.
  - apply input_error_Ok. run_body. rewrite Hf. simpl.
    unfold first_phone. rewrite Hp. simpl.
    now rewrite (edit_first_phone r p0 ps new Hp).
  - rewrite (show_phone_found _ n r'); [reflexivity|].
    unfold find. apply dict_get_set_same.
Qed.

Lemma change_contact_replaces_first_phone_witness :
  change_contact [bob; lit "abc"] book_alice_bob
  = (Ok (Str (lit "Contact updated.")),
     PyDict.set bob
       (mkRecord (mkName bob)
          (Some (mkBirthday (mkdatetime (mkdate 1995 6 8) 0 0 0 0)))
          [mkPhone (lit "abc")])
       book_alice_bob).
Proof.
  exact (proj1 (change_contact_replaces_first_phone book_alice_bob bob (lit "abc")
                  (mkRecord (mkName bob)
                     (Some (mkBirthday (mkdatetime (mkdate 1995 6 8) 0 0 0 0)))
                     [mkPhone (lit "0987654321")])
                  (mkPhone (lit "0987654321")) [] eq_refl eq_refl)).
Defined.

(** [change] for a name that is not in the book answers "Not found.";
    for a contact stored without any phone it answers "No arguments."
    (the [IndexError] of [record.phones[0]]); the book stays as it was. *)
Theorem change_contact_without_target (book : AddressBook) (n new : pystr) :
  (find book n = None ->
   change_contact [n; new] book = (Ok (Str (lit "Not found.")), book))
  /\ (forall r, find book n = Some r -> phones r = [] ->
      change_contact [n; new] book = (Ok (Str (lit "No arguments.")), book)).
Proof.
  split.
  - intros Hf. apply input_error_Ok. run_body. now rewrite Hf.
  - intros r Hf Hp. unfold change_contact, input_error. run_body.
    rewrite Hf. simpl. unfold first_phone. rewrite Hp. reflexivity.
Qed.

Lemma change_contact_without_target_witness :
  change_contact [lit "carol"; lit "1234567890"] book_alice_bob
  = (Ok (Str (lit "Not found.")), book_alice_bob)
  /\ change_contact [alice; lit "1234567890"] [(alice, mkRecord (mkName alice) None [])]
     = (Ok (Str (lit "No arguments.")), [(alice, mkRecord (mkName alice) None [])]).
Proof.
  split.
  - apply (change_contact_without_target book_alice_bob (lit "carol")
             (lit "1234567890")). reflexivity.
  - apply (proj2 (change_contact_without_target
                    [(alice, mkRecord (mkName alice) None [])] alice
                    (lit "1234567890"))
             (mkRecord (mkName alice) None [])); reflexivity.
Defined.

(** [add-birthday] for a contact of the book, with a text [Birthday]
    accepts, answers "Birthday added.", stores the date in the place of any
    earlier birthday and keeps name and phones; [show-birthday] then
    answers with that date. *)
Theorem add_birthday_then_show
    (book : AddressBook) (n s : pystr) (r : record) (b : Birthday) :
  find book n = Some r -> Birthday_init s = Ok b ->
  let r' := mkRecord (name r) (Some b) (phones r) in
  add_birthday [n; s] book
  = (Ok (Str (lit "Birthday added.")), PyDict.set n r' book)
  /\ show_birthday [n] (PyDict.set n r' book)
     = (Ok (Str (format_iso_midnight (dt_date (birthday_value b)))),
        PyDict.set n r' book).
Proof.
  intros Hf Hb r'. split.
  - apply input_error_Ok. run_body. rewrite Hf. simpl.
    unfold record_add_birthday. rewrite Hb. reflexivity.
  - apply input_error_Ok. run_body. unfold find at 1.
    rewrite dict_get_set_same. simpl. unfold Birthday_str.
    rewrite (Birthday_init_midnight s b Hb). now rewrite datetime_str_midnight.
Qed.

Lemma add_birthday_then_show_witness :
  let r' := mkRecord (mkName alice)
              (Some (mkBirthday (mkdatetime (mkdate 2000 2 29) 0 0 0 0)))
              [mkPhone (lit "1234567890")] in
  add_birthday [alice; lit "29.02.2000"] book_alice_bob
  = (Ok (Str (lit "Birthday added.")), PyDict.set alice r' book_alice_bob)
  /\ show_birthday [alice] (PyDict.set alice r' book_alice_bob)
     = (Ok (Str (lit "2000-02-29 00:00:00")), PyDict.set alice r' book_alice_bob).
Proof.
  exact (add_birthday_then_show book_alice_bob alice (lit "29.02.2000")
           (mkRecord (mkName alice) None [mkPhone (lit "1234567890")])
           (mkBirthday (mkdatetime (mkdate 2000 2 29) 0 0 0 0))
           eq_refl eq_refl).
Defined.

(** [add-birthday] looks the contact up before it reads the date: for a
    name that is not in the book it answers "Contact not found." whatever
    the date text is; for a contact of the book and a text [Birthday]
    rejects it answers "Give the correct data, please" and the contact
    keeps the birthday it had. *)
Theorem add_birthday_refused (book : AddressBook) (n s : pystr) :
  (find book n = None ->
   add_birthday [n; s] book = (Ok (Str (lit "Contact not found.")), book))
  /\ (forall r, find book n = Some r -> (forall b, Birthday_init s <> Ok b) ->
      add_birthday [n; s] book
      = (Ok (Str (lit "Give the correct data, please")), book)).
Proof.
  split.
  - intros Hf. apply input_error_Ok. run_body. now rewrite Hf.
  - intros r Hf Hno.
    apply input_error_ValueError with (msg := birthday_format_error).
    run_body. rewrite Hf. simpl. unfold record_add_birthday.
    destruct (Birthday_init s) as [b|e] eqn:E.
    + exfalso. now apply (Hno b).
    + simpl. now rewrite (Birthday_init_Raise s e E).
Qed.

Lemma add_birthday_refused_witness :
  add_birthday [lit "carol"; lit "not a date"] book_alice_bob
  = (Ok (Str (lit "Contact not found.")), book_alice_bob)
  /\ add_birthday [bob; lit "30.02.2000"] book_alice_bob
     = (Ok (Str (lit "Give the correct data, please")), book_alice_bob).
Proof.
  split.
  - apply (add_birthday_refused book_alice_bob (lit "carol") (lit "not a date")).
    reflexivity.
  - apply (proj2 (add_birthday_refused book_alice_bob bob (lit "30.02.2000"))
             (mkRecord (mkName bob)
                (Some (mkBirthday (mkdatetime (mkdate 1995 6 8) 0 0 0 0)))
                [mkPhone (lit "0987654321")])).
    + reflexivity.
    + intros b. discriminate.
Defined.

(** Asking about a name that is not in the book never raises and never
    answers "Can't find the contact.": [phone] answers "Not found." and
    [show-birthday] answers "No birthday found for this contact.", as it
    does for a contact that has no birthday. *)
Theorem lookup_of_missing_contact (book : AddressBook) (n : pystr) :
  (find book n = None ->
   show_phone [n] book = (Ok (Str (lit "Not found.")), book)
   /\ show_birthday [n] book
      = (Ok (Str (lit "No birthday found for this contact.")), book))
  /\ (forall r, find book n = Some r -> birthday r = None ->
      show_birthday [n] book
      = (Ok (Str (lit "No birthday found for this contact.")), book)).
Proof.
  split.
  - intros Hf. split; apply input_error_Ok; run_body; now rewrite Hf.
  - intros r Hf Hb. apply input_error_Ok. run_body. now rewrite Hf, Hb.
Qed.

Lemma lookup_of_missing_contact_witness :
  (show_phone [lit "carol"] book_alice_bob
   = (Ok (Str (lit "Not found.")), book_alice_bob)
   /\ show_birthday [lit "carol"] book_alice_bob
      = (Ok (Str (lit "No birthday found for this contact.")), book_alice_bob))
  /\ show_birthday [alice] book_alice_bob
     = (Ok (Str (lit "No birthday found for this contact.")), book_alice_bob).
Proof.
  split.
  - apply (lookup_of_missing_contact book_alice_bob (lit "carol")). reflexivity.
  - apply (proj2 (lookup_of_missing_contact book_alice_bob alice)
             (mkRecord (mkName alice) None [mkPhone (lit "1234567890")]));
      reflexivity.
Defined.

(* ================================================================== *)
(** ** What the handlers do to the book *)

Lemma run_is_decorated (today : date) (c : command) (args : list pystr) :
  run today c args = input_error (handler_func today c args).
Proof. destruct c; reflexivity. Qed.

Lemma unpack2_Ok (args : list pystr) (a b : pystr) :
  unpack2 args = Ok (a, b) -> args = [a; b].
Proof.
  destruct args as [|x [|y [|z rest]]]; simpl; try discriminate.
  now intros [= -> ->].
Qed.

Lemma dict_get_Some_In {V} (k : pystr) (v : V) (d : PyDict.dict V) :
  PyDict.get k d = Some v -> In (k, v) d.
Proof.
  induction d as [|[k' v'] d IH]; simpl; [discriminate|].
  destruct (str_eqb k k') eqn:E.
  - apply str_eqb_eq in E; subst k'. intros [= ->]. now left.
  - auto.
Qed.

Lemma dict_set_absent {V} (k : pystr) (v : V) (d : PyDict.dict V) :
  PyDict.get k d = None -> PyDict.set k v d = d ++ [(k, v)].
Proof.
  induction d as [|[k' v'] d IH]; simpl; [reflexivity|].
  destruct (str_eqb k k'); [discriminate|]. intros H. now rewrite (IH H).
Qed.

(** The book a handler leaves is the book it got, or that book with the
    entry of its first argument set to a record: a fresh one for [add], the
    stored one changed for the others. *)
Lemma run_book_shape (today : date) (c : command) (args : list pystr)
    (book : AddressBook) :
  snd (run today c args book) = book
  \/ exists n rest r',
       args = n :: rest
       /\ snd (run today c args book) = PyDict.set n r' book
       /\ ((c = CmdAdd /\ name r' = mkName n /\ phones r' <> [])
           \/ (c <> CmdAdd
               /\ exists r, find book n = Some r /\ name r' = name r
                            /\ (phones r <> [] -> phones r' <> []))).
Proof.
  rewrite run_is_decorated, input_error_snd.
  destruct c; simpl; run_body.
  - destruct (unpack2 args) as [[a b]|e] eqn:E; simpl; [|now left].
    apply unpack2_Ok in E. subst args.
    unfold add_phone. destruct (Phone_init b) as [p|e]; simpl; [|now left].
    right. exists a, [b], (mkRecord (mkName a) None [p]).
    split; [reflexivity|]. split; [reflexivity|]. left.
    repeat split. discriminate.
  - destruct (unpack2 args) as [[a b]|e] eqn:E; simpl; [|now left].
    apply unpack2_Ok in E. subst args.
    destruct (find book a) as [r|] eqn:Hf; simpl; [|now left].
    unfold first_phone. destruct (phones r) as [|p0 ps] eqn:Hp; simpl; [now left|].
    right. rewrite (edit_first_phone r p0 ps b Hp). simpl.
    exists a, [b], (mkRecord (name r) (birthday r) (mkPhone b :: ps)).
    split; [reflexivity|]. split; [reflexivity|]. right.
    split; [discriminate|]. exists r.
    split; [exact Hf|]. split; [reflexivity|]. intros _. discriminate.
  - left. destruct (unpack1 args); simpl; [|reflexivity].
    destruct (find book a); reflexivity.
  - left. destruct book; reflexivity.
  - destruct (unpack2 args) as [[a b]|e] eqn:E; simpl; [|now left].
    apply unpack2_Ok in E. subst args.
    destruct (find book a) as [r|] eqn:Hf; simpl; [|now left].
    unfold record_add_birthday.
    destruct (Birthday_init b) as [x|e]; simpl; [|now left].
    right. exists a, [b], (mkRecord (name r) (Some x) (phones r)).
    split; [reflexivity|]. split; [reflexivity|]. right.
    split; [discriminate|]. exists r.
    split; [exact Hf|]. split; [reflexivity|]. auto.
  - left. destruct (unpack1 args); simpl; [|reflexivity].
    destruct (find book a) as [r|]; [destruct (birthday r)|]; reflexivity.
  - left. destruct (get_birthdays_per_week today book) as [[|x l]|e]; reflexivity.
Qed.

Lemma book_ok_find (book : AddressBook) (n : pystr) (r : record) :
  book_ok book -> find book n = Some r ->
  name_value (name r) = n /\ phones r <> [].
Proof.
  intros [_ Hall] Hf. apply dict_get_Some_In in Hf.
  rewrite Forall_forall in Hall. exact (Hall _ Hf).
Qed.

Lemma Forall_dict_set {V} (P : pystr * V -> Prop) (k : pystr) (v : V)
    (d : PyDict.dict V) :
  Forall P d -> P (k, v) -> Forall P (PyDict.set k v d).
Proof.
  intros Hd Hk. induction d as [|[k' v'] d IH]; simpl.
  - auto.
  - inversion Hd; subst. destruct (str_eqb k k') eqn:E.
    + apply str_eqb_eq in E; subst k'. auto.
    + auto.
Qed.

Lemma book_ok_set (book : AddressBook) (n : pystr) (r : record) :
  book_ok book -> name_value (name r) = n -> phones r <> [] ->
  book_ok (PyDict.set n r book).
Proof.
  intros [Hwf Hall] Hn Hp. split; [now apply dict_wf_set|].
  apply Forall_dict_set; [exact Hall|]. simpl. auto.
Qed.

(** Every handler keeps the book in order: keys stay unique, every record
    stays under its own name, and every contact keeps at least one phone. *)
Theorem handlers_keep_book_ok
    (today : date) (c : command) (args : list pystr) (book : AddressBook) :
  book_ok book -> book_ok (snd (run today c args book)).
Proof.
  intros Hok.
  destruct (run_book_shape today c args book)
    as [->|(n & rest & r' & _ & -> & [(_ & Hn & Hp)|(_ & r & Hf & Hn & Hp)])].
  - exact Hok.
  - apply book_ok_set; auto. now rewrite Hn.
  - destruct (book_ok_find book n r Hok Hf) as [Hrn Hrp].
    apply book_ok_set; auto. now rewrite Hn.
Qed.

Lemma book_ok_empty : book_ok [].
Proof. split; [constructor|constructor]. Qed.

Lemma handlers_keep_book_ok_witness :
  book_ok (snd (run monday_2024_06_03 CmdAdd [alice; lit "1234567890"] [])).
Proof.
  apply (handlers_keep_book_ok monday_2024_06_03 CmdAdd
           [alice; lit "1234567890"] []).
  split; [constructor|constructor].
Defined.

(** No handler removes a contact or changes the order of the book: the
    names after a call are the names before it, with at most one new name
    at the end, and only [add] adds one. *)
Theorem handlers_never_remove
    (today : date) (c : command) (args : list pystr) (book : AddressBook) :
  PyDict.keys (snd (run today c args book)) = PyDict.keys book
  \/ (c = CmdAdd
      /\ exists n, find book n = None
                   /\ PyDict.keys (snd (run today c args book))
                      = PyDict.keys book ++ [n]).
Proof.
  destruct (run_book_shape today c args book)
    as [->|(n & rest & r' & _ & -> & [(Hc & _)|(_ & r & Hf & _)])].
  - now left.
  - destruct (find book n) as [r|] eqn:Hf.
    + left. exact (dict_keys_set_present n r' r book Hf).
    + right. split; [exact Hc|]. exists n. split; [exact Hf|].
      now apply dict_keys_set_absent.
  - left. exact (dict_keys_set_present n r' r book Hf).
Qed.

(** A handler touches the contact named by its first argument only: every
    other name finds after the call what it found before. *)
Theorem handlers_leave_other_contacts
    (today : date) (c : command) (args : list pystr) (book : AddressBook)
    (k : pystr) :
  (forall n rest, args = n :: rest -> k <> n) ->
  find (snd (run today c args book)) k = find book k.
Proof.
  intros Hk.
  destruct (run_book_shape today c args book)
    as [->|(n & rest & r' & Ha & -> & _)]; [reflexivity|].
  unfold find. apply dict_get_set_other. now apply (Hk n rest).
Qed.

Lemma handlers_leave_other_contacts_witness :
  find (snd (run monday_2024_06_03 CmdChange [bob; lit "5555555555"] book_alice_bob))
       alice
  = find book_alice_bob alice.
Proof.
  apply (handlers_leave_other_contacts monday_2024_06_03 CmdChange
           [bob; lit "5555555555"] book_alice_bob alice).
  intros n rest [= <- _]. discriminate.
Defined.

(* ================================================================== *)
(** ** Listing the book *)

Lemma join_snoc (sep x : pystr) (l : list pystr) :
  l <> [] -> join sep (l ++ [x]) = join sep l ++ sep ++ x.
Proof.
  induction l as [|y l IH]; [congruence|]. intros _.
  destruct l as [|z l]; [reflexivity|].
  change (join sep ((y :: z :: l) ++ [x]))
    with (y ++ sep ++ join sep ((z :: l) ++ [x])).
  rewrite IH by discriminate.
  change (join sep (y :: z :: l)) with (y ++ sep ++ join sep (z :: l)).
  now rewrite <- !app_assoc.
Qed.

Lemma show_all_nonempty (book : AddressBook) :
  book <> [] ->
  show_all book
  = (Ok (Str (join NEWLINE (map contact_line (PyDict.values book)))), book).
Proof.
  intros H. apply input_error_Ok. run_body.
  destruct book; [congruence|reflexivity].
Qed.

(** [all] on the empty book answers "No contacts stored."; a contact added
    under a new name is listed on a line of its own after all the lines
    there were. *)
Theorem show_all_lists_new_contact_last (book : AddressBook) (r : record) :
  fst (show_all []) = Ok (Str (lit "No contacts stored."))
  /\ (find book (name_value (name r)) = None ->
      match book with
      | [] => fst (show_all (add_record book r)) = Ok (Str (contact_line r))
      | _ :: _ =>
          exists s,
            fst (show_all book) = Ok (Str s)
            /\ fst (show_all (add_record book r))
               = Ok (Str (s ++ NEWLINE ++ contact_line r))
      end).
Proof.
  split; [reflexivity|]. intros Hf.
  unfold add_record. rewrite (dict_set_absent _ r book Hf).
  destruct book as [|kr book]; [reflexivity|].
  remember (kr :: book) as bk eqn:Hbk.
  assert (Hne : bk <> []) by (subst bk; discriminate).
  exists (join NEWLINE (map contact_line (PyDict.values bk))).
  rewrite (show_all_nonempty bk Hne). split; [reflexivity|].
  rewrite show_all_nonempty
    by (intros E; apply app_eq_nil in E as [_ E]; discriminate).
  cbn [fst]. unfold PyDict.values. rewrite !map_app. cbn [map snd].
  rewrite join_snoc; [reflexivity|].
  subst bk. discriminate.
Qed.

Lemma show_all_lists_new_contact_last_witness :
  exists s,
    fst (show_all book_alice_bob) = Ok (Str s)
    /\ fst (show_all (add_record book_alice_bob
                        (mkRecord (mkName (lit "carol")) None
                           [mkPhone (lit "5555555555")])))
       = Ok (Str (s ++ NEWLINE ++ lit "carol: 5555555555")).
Proof.
  exact (proj2 (show_all_lists_new_contact_last book_alice_bob
                  (mkRecord (mkName (lit "carol")) None
                     [mkPhone (lit "5555555555")])) eq_refl).
Defined.

(* ================================================================== *)
(** ** The exceptions of the handlers *)

Lemma unpack2_Raise (args : list pystr) (e : exn) :
  unpack2 args = Raise e -> exists msg, e = ValueError msg.
Proof.
  destruct args as [|a [|b [|c rest]]]; simpl; try discriminate;
    intros [= <-]; eauto.
Qed.

Lemma unpack1_Raise (args : list pystr) (e : exn) :
  unpack1 args = Raise e -> exists msg, e = ValueError msg.
Proof.
  destruct args as [|a [|b rest]]; simpl; try discriminate;
    intros [= <-]; eauto.
Qed.

Lemma Phone_init_Raise (s : pystr) (e : exn) :
  Phone_init s = Raise e -> e = ValueError phone_format_error.
Proof.
  unfold Phone_init. destruct (negb _); [|discriminate]. now intros [= <-].
Qed.

Lemma next_day_exn (d : date) (e : exn) : next_day d = Raise e -> e = OverflowError.
Proof.
  unfold next_day.
  repeat match goal with |- context [if ?c then _ else _] => destruct c end;
    try discriminate. now intros [= <-].
Qed.

Lemma prev_day_exn (d : date) (e : exn) : prev_day d = Raise e -> e = OverflowError.
Proof.
  unfold prev_day.
  repeat match goal with |- context [if ?c then _ else _] => destruct c end;
    try discriminate. now intros [= <-].
Qed.

Lemma step_days_exn (step : date -> result date) (n : nat) (d : date) (e : exn) :
  (forall d' e', step d' = Raise e' -> e' = OverflowError) ->
  step_days step n d = Raise e -> e = OverflowError.
Proof.
  intros Hstep. revert d. induction n as [|n IH]; intros d; cbn [step_days].
  - discriminate.
  - destruct (step d) as [d1|e1] eqn:E; simpl.
    + apply IH.
    + intros [= <-]. now apply Hstep in E.
Qed.

Lemma add_days_exn (d : date) (n : Z) (e : exn) :
  add_days d n = Raise e -> e = OverflowError.
Proof.
  unfold add_days. destruct (0 <=? n); apply step_days_exn.
  - apply next_day_exn.
  - apply prev_day_exn.
Qed.

Lemma replace_year_Raise (d : date) (y : Z) (e : exn) :
  replace_year d y = Raise e -> exists msg, e = ValueError msg.
Proof. apply date_new_Raise. Qed.

Lemma birthdays_loop_exn (today end_ : date) (items : list (pystr * record))
    (acc : PyDict.dict (list pystr)) (e : exn) :
  birthdays_loop today end_ items acc = Raise e ->
  e = AttributeError \/ exists msg, e = ValueError msg.
Proof.
  revert acc. induction items as [|[n r] items IH]; intros acc; cbn [birthdays_loop].
  - discriminate.
  - destruct (birthday r) as [b|]; simpl; [|intros [= <-]; now left].
    destruct (replace_year (dt_date (birthday_value b)) (year today))
      as [bty|e1] eqn:Hr; simpl.
    + destruct ((sub_days bty end_ <=? 5) && (sub_days bty end_ >? -2)); apply IH.
    + intros [= <-]. right. now apply replace_year_Raise in Hr.
Qed.

Lemma get_birthdays_per_week_exn (today : date) (book : AddressBook) (e : exn) :
  get_birthdays_per_week today book = Raise e ->
  e = OverflowError \/ e = AttributeError \/ exists msg, e = ValueError msg.
Proof.
  unfold get_birthdays_per_week.
  destruct (add_days today (- weekday today)) as [s|e1] eqn:Hs; simpl.
  - destruct (add_days s 6) as [en|e2] eqn:He; simpl.
    + intros H. right. now apply birthdays_loop_exn in H.
    + intros [= <-]. left. now apply add_days_exn in He.
  - intros [= <-]. left. now apply add_days_exn in Hs.
Qed.

(** The exceptions the undecorated handlers raise.  A handler raises
    [ValueError]; or [IndexError], which only [change] does, for a contact
    stored without phones; or [AttributeError] or [OverflowError], which
    only the weekly query does.  None raises [KeyError]: the decorator's
    answer "Can't find the contact." is never given for a failed call. *)
Theorem handler_exceptions
    (today : date) (c : command) (args : list pystr) (book : AddressBook) (e : exn) :
  fst (handler_func today c args book) = Raise e ->
  (exists msg, e = ValueError msg)
  \/ (e = IndexError /\ c = CmdChange
      /\ exists n new r, args = [n; new] /\ find book n = Some r /\ phones r = [])
  \/ (c = CmdBirthdays /\ (e = AttributeError \/ e = OverflowError)).
Proof.
  destruct c; simpl; run_body.
  - destruct (unpack2 args) as [[a b]|e'] eqn:E; simpl.
    + unfold add_phone. destruct (Phone_init b) as [p|e'] eqn:Ep; simpl;
        [discriminate|]. intros [= <-]. left.
      rewrite (Phone_init_Raise b e' Ep). eauto.
    + intros [= <-]. left. now apply unpack2_Raise in E.
  - destruct (unpack2 args) as [[a b]|e'] eqn:E; simpl.
    + apply unpack2_Ok in E. subst args.
      destruct (find book a) as [r|] eqn:Hf; simpl; [|discriminate].
      unfold first_phone. destruct (phones r) eqn:Hp; simpl; [|discriminate].
      intros [= <-]. right. left. split; [reflexivity|]. split; [reflexivity|].
      exists a, b, r. auto.
    + intros [= <-]. left. now apply unpack2_Raise in E.
  - destruct (unpack1 args) as [a|e'] eqn:E; simpl.
    + destruct (find book a); discriminate.
    + intros [= <-]. left. now apply unpack1_Raise in E.
  - destruct book; discriminate.
  - destruct (unpack2 args) as [[a b]|e'] eqn:E; simpl.
    + destruct (find book a) as [r|]; simpl; [|discriminate].
      unfold record_add_birthday.
      destruct (Birthday_init b) as [x|e'] eqn:Eb; simpl; [discriminate|].
      intros [= <-]. left. rewrite (Birthday_init_Raise b e' Eb). eauto.
    + intros [= <-]. left. now apply unpack2_Raise in E.
  - destruct (unpack1 args) as [a|e'] eqn:E; simpl.
    + destruct (find book a) as [r|]; [destruct (birthday r)|]; discriminate.
    + intros [= <-]. left. now apply unpack1_Raise in E.
  - destruct (get_birthdays_per_week today book) as [[|x l]|e'] eqn:E; simpl;
      try discriminate.
    intros [= <-].
    apply get_birthdays_per_week_exn in E as [->|[->|H]];
      [right; right; auto|right; right; auto|left; exact H].
Qed.

Lemma handler_exceptions_witness :
  (exists msg, IndexError = ValueError msg)
  \/ (IndexError = IndexError /\ CmdChange = CmdChange
      /\ exists n new r,
           [alice; lit "1234567890"] = [n; new]
           /\ find [(alice, mkRecord (mkName alice) None [])] n = Some r
           /\ phones r = [])
  \/ (CmdChange = CmdBirthdays /\ (IndexError = AttributeError \/ IndexError = OverflowError)).
Proof.
  apply (handler_exceptions monday_2024_06_03 CmdChange [alice; lit "1234567890"]
           [(alice, mkRecord (mkName alice) None [])] IndexError).
  reflexivity.
Defined.

(* ================================================================== *)
(** ** More on the weekly birthday query *)

Lemma birthdays_window_rule_witness :
  exists bd, get_birthdays_per_week monday_2024_06_03 book_birthdays = Ok bd.
Proof.
  apply (birthdays_window_rule monday_2024_06_03 book_birthdays).
  - reflexivity.
  - unfold PyDict.wf. vm_compute.
    repeat constructor; simpl; intuition discriminate.
  - vm_compute. discriminate.
  - unfold all_birthdays_project. vm_compute.
    repeat constructor; do 2 eexists; split; reflexivity.
Defined.

Lemma birthdays_handler_escapes_without_birthday_witness :
  show_birthdays_next_week monday_2024_06_03 book_alice_bob
  = (Raise AttributeError, book_alice_bob).
Proof.
  apply (birthdays_handler_escapes_without_birthday monday_2024_06_03 alice
           (mkRecord (mkName alice) None [mkPhone (lit "1234567890")])
           [(bob, mkRecord (mkName bob)
                    (Some (mkBirthday (mkdatetime (mkdate 1995 6 8) 0 0 0 0)))
                    [mkPhone (lit "0987654321")])]).
  - reflexivity.
  - vm_compute. discriminate.
  - reflexivity.
Defined.

Lemma dict_keys_set_incl {V} (k x : pystr) (v : V) (d : PyDict.dict V) :
  In x (PyDict.keys (PyDict.set k v d)) -> x = k \/ In x (PyDict.keys d).
Proof.
  induction d as [|[k' v'] d IH]; simpl.
  - intros [H|[]]. auto.
  - destruct (str_eqb k k'); simpl; intros [H|H]; auto.
    apply IH in H as [H|H]; auto.
Qed.

Lemma defaultdict_append_keys (day name x : pystr) (d : PyDict.dict (list pystr)) :
  In x (PyDict.keys (defaultdict_append day name d)) ->
  x = day \/ In x (PyDict.keys d).
Proof.
  unfold defaultdict_append.
  destruct (PyDict.get day d); apply dict_keys_set_incl.
Qed.

Lemma bucket_working_day (d : date) : In (bucket d) working_days.
Proof.
  rewrite bucket_is_spec_bucket.
  pose proof (weekday_range d) as Hw.
  assert (H : weekday d = 0 \/ weekday d = 1 \/ weekday d = 2 \/ weekday d = 3
              \/ weekday d = 4 \/ weekday d = 5 \/ weekday d = 6) by lia.
  unfold spec_bucket, strftime_A, working_days.
  repeat (destruct H as [H|H]); rewrite H; simpl; auto 6.
Qed.

Lemma birthdays_loop_keys (today end_ : date) (items : list (pystr * record))
    (acc bd : PyDict.dict (list pystr)) (x : pystr) :
  birthdays_loop today end_ items acc = Ok bd ->
  In x (PyDict.keys bd) -> In x (PyDict.keys acc) \/ In x working_days.
Proof.
  revert acc. induction items as [|[n r] items IH]; intros acc; cbn [birthdays_loop].
  - intros [= <-]. auto.
  - destruct (birthday r) as [b|]; simpl; [|discriminate].
    destruct (replace_year (dt_date (birthday_value b)) (year today))
      as [bty|e]; simpl; [|discriminate].
    destruct ((sub_days bty end_ <=? 5) && (sub_days bty end_ >? -2)).
    + intros H Hx. destruct (IH _ H Hx) as [Hk|Hk]; [|auto].
      apply defaultdict_append_keys in Hk as [->|Hk]; [|auto].
      right. apply bucket_working_day.
    + apply IH.
Qed.

Lemma get_birthdays_per_week_loop (today : date) (book : AddressBook)
    (bd : PyDict.dict (list pystr)) :
  get_birthdays_per_week today book = Ok bd ->
  exists start end_,
    add_days today (- weekday today) = Ok start
    /\ add_days start 6 = Ok end_
    /\ birthdays_loop today end_ book [] = Ok bd.
Proof.
  unfold get_birthdays_per_week.
  destruct (add_days today (- weekday today)) as [s|]; simpl; [|discriminate].
  destruct (add_days s 6) as [e|] eqn:He; simpl; [|discriminate].
  intros H. exists s, e. auto.
Qed.

(** The days the weekly query reports under are Monday to Friday only: a
    Saturday or Sunday is never a key of the mapping it returns. *)
Theorem weekly_query_days_are_working_days
    (today : date) (book : AddressBook) (bd : PyDict.dict (list pystr)) (day : pystr) :
  get_birthdays_per_week today book = Ok bd ->
  In day (PyDict.keys bd) -> In day working_days.
Proof.
  intros H Hin.
  apply get_birthdays_per_week_loop in H as (s & e & _ & _ & H).
  destruct (birthdays_loop_keys _ _ _ _ _ day H Hin) as [[]|Hw]. exact Hw.
Qed.

Lemma weekly_query_days_are_working_days_witness :
  In (lit "Monday") working_days.
Proof.
  apply (weekly_query_days_are_working_days monday_2024_06_03 book_birthdays
           [(lit "Monday", [alice; bob])] (lit "Monday")).
  - reflexivity.
  - simpl. now left.
Defined.

Lemma replace_year_today (today d : date) :
  valid_date today -> month d = month today -> day d = day today ->
  replace_year d (year today) = Ok today.
Proof.
  intros Hv Hm Hd. unfold replace_year. rewrite Hm, Hd.
  apply date_new_Ok. split; [exact Hv|]. now destruct today.
Qed.

(** A contact whose birthday is today is reported by the weekly query, when
    it returns, only if today is a Saturday or a Sunday, and then under
    Monday; from Monday to Friday the birthday of the day is not reported. *)
Theorem birthday_of_today
    (today : date) (book : AddressBook) (bd : PyDict.dict (list pystr))
    (n : pystr) (r : record) (b : Birthday) :
  valid_date today -> PyDict.wf book ->
  get_birthdays_per_week today book = Ok bd ->
  find book n = Some r -> birthday r = Some b ->
  month (dt_date (birthday_value b)) = month today ->
  day (dt_date (birthday_value b)) = day today ->
  forall day_name,
    listed bd day_name n <-> (5 <= weekday today /\ day_name = lit "Monday").
Proof.
  intros Hv Hwf H Hf Hb Hm Hd day_name.
  apply get_birthdays_per_week_loop in H as (s & e & Hs & He & H).
  destruct (week_end_Ok today s e Hv Hs He) as (Ho & _ & _ & _).
  pose proof (weekday_range today) as Hw.
  pose proof (replace_year_today today _ Hv Hm Hd) as Hr.
  assert (Hbucket : 5 <= weekday today -> bucket today = lit "Monday").
  { intros H5. rewrite bucket_is_spec_bucket. unfold spec_bucket.
    assert (H56 : weekday today = 5 \/ weekday today = 6) by lia.
    destruct H56 as [E|E]; rewrite E; reflexivity. }
  rewrite (birthdays_loop_Ok _ _ _ _ _ H day_name n). split.
  - intros [(names & [=] & _)|(r' & bty & Hin & (b' & Hb' & Hr' & Hwin) & ->)].
    apply (dict_get_In book n r' Hwf) in Hin. unfold find in Hf.
    rewrite Hf in Hin. injection Hin as <-.
    rewrite Hb in Hb'. injection Hb' as <-.
    rewrite Hr in Hr'. injection Hr' as <-.
    assert (H5 : 5 <= weekday today) by lia. auto.
  - intros [H5 ->]. right. exists r, today.
    split; [now apply (dict_get_In book n r Hwf)|].
    split; [|now rewrite Hbucket].
    exists b. split; [exact Hb|]. split; [exact Hr|]. lia.
Qed.

Lemma birthday_of_today_witness :
  listed [(lit "Monday", [alice; bob])] (lit "Monday") bob
  <-> (5 <= weekday (mkdate 2024 6 8) /\ lit "Monday" = lit "Monday").
Proof.
  refine (birthday_of_today (mkdate 2024 6 8) book_birthdays
           [(lit "Monday", [alice; bob])] bob
           (mkRecord (mkName bob)
              (Some (mkBirthday (mkdatetime (mkdate 1995 6 8) 0 0 0 0)))
              [mkPhone (lit "0987654321")])
           (mkBirthday (mkdatetime (mkdate 1995 6 8) 0 0 0 0))
           _ _ _ _ _ _ _ (lit "Monday")).
  - reflexivity.
  - unfold PyDict.wf. vm_compute.
    repeat constructor; simpl; intuition discriminate.
  - reflexivity.
  - reflexivity.
  - reflexivity.
  - reflexivity.
  - reflexivity.
Defined.

Lemma leap_day_does_not_project (d : date) (y : Z) :
  1 <= y <= 9999 -> is_leap y = false -> month d = 2 -> day d = 29 ->
  exists msg, replace_year d y = Raise (ValueError msg).
Proof.
  intros Hy Hl Hm Hd. unfold replace_year, date_new, MINYEAR, MAXYEAR.
  rewrite Hm, Hd.
  replace ((1 <=? y) && (y <=? 9999)) with true
    by (symmetry; apply andb_true_iff; rewrite !Z.leb_le; lia).
  unfold days_in_month. rewrite Hl. simpl. eauto.
Qed.

Lemma birthdays_loop_leap_day (today end_ : date) (items : list (pystr * record))
    (acc : PyDict.dict (list pystr)) :
  1 <= year today <= 9999 -> is_leap (year today) = false ->
  Forall (fun kr => has_birthday (snd kr)) items ->
  Exists (fun kr => born_on_leap_day (snd kr)) items ->
  exists msg, birthdays_loop today end_ items acc = Raise (ValueError msg).
Proof.
  intros Hy Hl. revert acc.
  induction items as [|[n r] items IH]; intros acc Hall Hex; cbn [birthdays_loop].
  - inversion Hex.
  - inversion Hall as [|? ? [b Hb] Hall']; subst. simpl in Hb. rewrite Hb. simpl.
    destruct (replace_year (dt_date (birthday_value b)) (year today))
      as [bty|e] eqn:Hr; simpl.
    + inversion Hex as [? ? (b' & Hb' & Hm & Hd)|? ? Hex']; subst.
      * simpl in Hb'. rewrite Hb in Hb'. injection Hb' as <-.
        destruct (leap_day_does_not_project _ _ Hy Hl Hm Hd) as [msg Hmsg].
        congruence.
      * destruct ((sub_days bty end_ <=? 5) && (sub_days bty end_ >? -2));
          now apply IH.
    + apply replace_year_Raise in Hr as [msg ->]. eauto.
Qed.

(** When every contact has a birthday and one of them was born on
    29 February, the weekly query fails in every year that is not a leap
    year: the date does not exist in that year, [replace] raises
    [ValueError], and the handler answers "Give the correct data, please",
    whoever else has a birthday that week. *)
Theorem weekly_query_in_common_year (today : date) (book : AddressBook) :
  valid_date today -> toordinal today - weekday today + 6 <= MAXORDINAL ->
  is_leap (year today) = false ->
  Forall (fun kr => has_birthday (snd kr)) book ->
  Exists (fun kr => born_on_leap_day (snd kr)) book ->
  show_birthdays_next_week today book
  = (Ok (Str (lit "Give the correct data, please")), book).
Proof.
  intros Hv Hle Hl Hall Hex.
  destruct (week_end_exists today Hv Hle) as (s & e & Hs & He).
  assert (Hy : 1 <= year today <= 9999) by (apply valid_date_bounds in Hv; tauto).
  destruct (birthdays_loop_leap_day today e book [] Hy Hl Hall Hex) as [msg Hmsg].
  apply input_error_ValueError with (msg := msg). run_body.
  unfold get_birthdays_per_week. rewrite Hs. simpl. rewrite He. simpl.
  now rewrite Hmsg.
Qed.

Lemma weekly_query_in_common_year_witness :
  let book := snd (add_birthday [alice; lit "29.02.2000"] book_birthdays) in
  show_birthdays_next_week (mkdate 2023 6 5) book
  = (Ok (Str (lit "Give the correct data, please")), book).
Proof.
  intros book.
  apply (weekly_query_in_common_year (mkdate 2023 6 5) book).
  - reflexivity.
  - vm_compute. discriminate.
  - reflexivity.
  - repeat constructor; eexists; reflexivity.
  - apply Exists_cons_hd. eexists. repeat split; reflexivity.
Defined.

Lemma birthdays_loop_nobody (today end_ : date) (items : list (pystr * record))
    (acc : PyDict.dict (list pystr)) :
  toordinal end_ = toordinal today - weekday today + 6 ->
  Forall (fun kr => outside_window today (snd kr)) items ->
  birthdays_loop today end_ items acc = Ok acc.
Proof.
  intros He. induction items as [|[n r] items IH]; intros Hall; cbn [birthdays_loop].
  - reflexivity.
  - inversion Hall as [|? ? (b & bty & Hb & Hr & Hout) Hall']; subst.
    simpl in Hb, Hr. rewrite Hb. simpl. rewrite Hr. simpl.
    unfold sub_days. rewrite He.
    destruct ((toordinal bty - (toordinal today - weekday today + 6) <=? 5)
              && (toordinal bty - (toordinal today - weekday today + 6) >? -2))
      eqn:Hw.
    + apply window_test in Hw. contradiction.
    + now apply IH.
Qed.

(** When every contact has a birthday and none falls between the Saturday
    of this week and the Friday of the next, the weekly query answers
    "No birthdays next week."; so it does on the empty book. *)
Theorem weekly_query_without_birthdays_due (today : date) (book : AddressBook) :
  valid_date today -> toordinal today - weekday today + 6 <= MAXORDINAL ->
  Forall (fun kr => outside_window today (snd kr)) book ->
  show_birthdays_next_week today book
  = (Ok (Str (lit "No birthdays next week.")), book).
Proof.
  intros Hv Hle Hall.
  destruct (week_end_exists today Hv Hle) as (s & e & Hs & He).
  destruct (week_end_Ok today s e Hv Hs He) as (Ho & _).
  apply input_error_Ok. run_body.
  unfold get_birthdays_per_week. rewrite Hs. simpl. rewrite He. simpl.
  now rewrite (birthdays_loop_nobody today e book [] Ho Hall).
Qed.

Lemma weekly_query_without_birthdays_due_witness :
  show_birthdays_next_week (mkdate 2024 6 10) book_birthdays
  = (Ok (Str (lit "No birthdays next week.")), book_birthdays).
Proof.
  apply (weekly_query_without_birthdays_due (mkdate 2024 6 10) book_birthdays).
  - reflexivity.
  - vm_compute. discriminate.
  - repeat constructor; do 2 eexists;
      (split; [reflexivity|]); (split; [reflexivity|]); vm_compute; intuition discriminate.
Defined.

(* ================================================================== *)
(** ** Reading back a date written as DD.MM.YYYY *)

Lemma all_upto_spec (P : Z -> bool) (n z : Z) :
  all_upto P n = true -> 1 <= z <= n -> P z = true.
Proof.
  unfold all_upto. rewrite forallb_forall. intros H Hz.
  specialize (H (Z.to_nat z)). rewrite Z2Nat.id in H by lia.
  apply H. apply in_seq. lia.
Qed.

Lemma reads_back_spec (text_ok : pystr -> bool) (width : nat) (n : Z) :
  reads_back text_ok width n = true ->
  text_ok (zfill width n) = true /\ py_int (zfill width n) = Some n.
Proof.
  unfold reads_back. rewrite andb_true_iff. intros [H1 H2]. split; [exact H1|].
  destruct (py_int (zfill width n)) as [v|]; [|discriminate].
  apply Z.eqb_eq in H2. now subst.
Qed.

Lemma days_read_back : all_upto (reads_back day_text 2) 31 = true.
Proof. vm_compute. reflexivity. Qed.

Lemma months_read_back : all_upto (reads_back month_text 2) 12 = true.
Proof. vm_compute. reflexivity. Qed.

Lemma years_read_back : all_upto (reads_back year_text 4) 9999 = true.
Proof. vm_compute. reflexivity. Qed.

(** Every date of the calendar, written as DD.MM.YYYY with zeros to the
    width, is accepted by [Birthday] and stored as that very date, at
    midnight. *)
Theorem Birthday_init_reads_DD_MM_YYYY (d : date) :
  valid_date d ->
  Birthday_init (format_DD_MM_YYYY d) = Ok (mkBirthday (mkdatetime d 0 0 0 0)).
Proof.
  intros Hv. pose proof Hv as Hb. apply valid_date_bounds in Hb as (Hy & Hm & Hd).
  pose proof (days_in_month_le_31 (year d) (month d)) as H31.
  destruct (reads_back_spec _ _ _
              (all_upto_spec _ 31 (day d) days_read_back ltac:(lia)))
    as [Hdt Hdi].
  destruct (reads_back_spec _ _ _
              (all_upto_spec _ 12 (month d) months_read_back ltac:(lia)))
    as [Hmt Hmi].
  destruct (reads_back_spec _ _ _
              (all_upto_spec _ 9999 (year d) years_read_back ltac:(lia)))
    as [Hyt Hyi].
  apply Birthday_init_Ok. simpl. apply strptime_Ok.
  exists (year d), (month d), (day d). split; [|split; [exact Hv|now destruct d]].
  exists (zfill 2 (day d)), (zfill 2 (month d)), (zfill 4 (year d)).
  split; [|auto 10].
  reflexivity.
Qed.

Lemma Birthday_init_reads_DD_MM_YYYY_witness :
  Birthday_init (lit "29.02.2024")
  = Ok (mkBirthday (mkdatetime (mkdate 2024 2 29) 0 0 0 0)).
Proof.
  apply (Birthday_init_reads_DD_MM_YYYY (mkdate 2024 2 29)). reflexivity.
Defined.

(* ================================================================== *)
(** ** Reading a command line *)

Lemma split_from_words (word s : pystr) :
  Forall (fun c => isspace_char c = false) word ->
  Forall is_word (split_from word s).
Proof.
  revert word. induction s as [|c s IH]; intros word Hw; cbn [split_from].
  - destruct word as [|x word]; simpl; [constructor|].
    constructor; [|constructor]. split; [discriminate|exact Hw].
  - destruct (isspace_char c) eqn:Hc.
    + destruct word as [|x word]; simpl.
      * apply IH. constructor.
      * constructor; [split; [discriminate|exact Hw]|]. apply IH. constructor.
    + apply IH. apply Forall_app. split; [exact Hw|]. constructor; auto.
Qed.

Lemma split_from_nil (word s : pystr) :
  split_from word s = [] <-> word = [] /\ is_blank s.
Proof.
  unfold is_blank. revert word.
  induction s as [|c s IH]; intros word; cbn [split_from].
  - destruct word; simpl; split; try discriminate; auto.
    + intros [H _]. discriminate.
  - destruct (isspace_char c) eqn:Hc.
    + destruct word as [|x word]; simpl.
      * rewrite IH. split.
        -- intros [_ H]. auto.
        -- intros [_ H]. inversion H; auto.
      * split; [discriminate|]. intros [H _]. discriminate.
    + rewrite IH. split.
      * intros [H _]. destruct word; discriminate.
      * intros [_ H]. inversion H; congruence.
Qed.

(** [split] gives words: none of them is empty and none has white space in
    it; and it gives no word at all exactly for a line that is empty or all
    white space. *)
Theorem split_gives_words (s : pystr) :
  Forall is_word (split s) /\ (split s = [] <-> is_blank s).
Proof.
  split.
  - apply split_from_words. constructor.
  - unfold split. rewrite split_from_nil. tauto.
Qed.

Lemma split_from_word (word w rest : pystr) :
  Forall (fun c => isspace_char c = false) w ->
  split_from word (w ++ rest) = split_from (word ++ w) rest.
Proof.
  revert word. induction w as [|c w IH]; intros word Hw; simpl.
  - now rewrite app_nil_r.
  - inversion Hw as [|? ? Hc Hw']; subst. rewrite Hc.
    rewrite IH by exact Hw'. now rewrite <- app_assoc.
Qed.

(** Words joined by single blanks split back into the same words. *)
Theorem split_of_join (ws : list pystr) :
  Forall is_word ws -> split (join (lit " ") ws) = ws.
Proof.
  unfold split. induction ws as [|w ws IH]; intros Hall; [reflexivity|].
  inversion Hall as [|? ? [Hne Hw] Hall']; subst.
  destruct ws as [|w2 ws].
  - simpl join. rewrite <- (app_nil_r w) at 1.
    rewrite split_from_word by exact Hw. simpl.
    destruct w; [congruence|reflexivity].
  - change (join (lit " ") (w :: w2 :: ws))
      with (w ++ 32%N :: join (lit " ") (w2 :: ws)).
    rewrite split_from_word by exact Hw. simpl app at 1. cbn [split_from].
    change (isspace_char 32%N) with true. cbv iota.
    destruct w as [|c w]; [congruence|]. simpl truthy. cbv iota.
    now rewrite (IH Hall').
Qed.

Lemma split_of_join_witness :
  split (lit "add alice 1234567890") = [lit "add"; alice; lit "1234567890"].
Proof.
  apply (split_of_join [lit "add"; alice; lit "1234567890"]).
  repeat constructor; try discriminate.
Defined.

Lemma lstrip_word (w : pystr) :
  match w with
  | [] => True
  | c :: _ => isspace_char c = false
  end -> lstrip w = w.
Proof. destruct w as [|c w]; simpl; [reflexivity|]. now intros ->. Qed.

Lemma strip_word (w : pystr) : is_word w -> strip w = w.
Proof.
  intros [_ Hw]. unfold strip.
  rewrite (lstrip_word w).
  - rewrite (lstrip_word (rev w)); [apply rev_involutive|].
    apply Forall_rev in Hw. destruct (rev w); [exact I|]. now inversion Hw.
  - destruct w; [exact I|]. now inversion Hw.
Qed.

Lemma parse_input_words (unicode_lower : pystr -> pystr)
    (user_input w : pystr) (args : list pystr) :
  split user_input = w :: args ->
  parse_input unicode_lower user_input = Ok (lower unicode_lower w, args).
Proof.
  intros H. unfold parse_input. rewrite H.
  pose proof (split_from_words [] user_input (Forall_nil _)) as Hw.
  fold (split user_input) in Hw. rewrite H in Hw.
  inversion Hw as [|? ? Hword _]; subst. now rewrite (strip_word w Hword).
Qed.

(* ================================================================== *)
(** ** The loop of [main] *)

(** An empty line, or one of white space only, stops the program:
    [parse_input] cannot unpack a command, the [ValueError] is raised
    outside any handler, nothing catches it, and the lines after it are
    not read. *)
Theorem blank_line_ends_the_run
    (unicode_lower : pystr -> pystr) (today : date) (user_input : pystr)
    (rest : list (date * pystr)) (book : AddressBook) :
  is_blank user_input ->
  exists msg,
    parse_input unicode_lower user_input = Raise (ValueError msg)
    /\ main_loop unicode_lower ((today, user_input) :: rest) book
       = ([Input PROMPT], Uncaught (ValueError msg), book).
Proof.
  intros Hb.
  assert (Hs : split user_input = []).
  { unfold split. apply split_from_nil. auto. }
  eexists. cbn [main_loop]. unfold main_turn, parse_input. rewrite Hs.
  split; reflexivity.
Qed.

Lemma blank_line_ends_the_run_witness :
  exists msg,
    parse_input (fun s => s) (lit "   ") = Raise (ValueError msg)
    /\ main_loop (fun s => s)
         [(monday_2024_06_03, lit "   "); (monday_2024_06_03, lit "all")]
         book_alice
       = ([Input PROMPT], Uncaught (ValueError msg), book_alice).
Proof.
  apply (blank_line_ends_the_run (fun s => s) monday_2024_06_03 (lit "   ")
           [(monday_2024_06_03, lit "all")] book_alice).
  repeat constructor.
Defined.

(** A line whose first word is [close] or [exit] once put in lower case
    ends the run with "Good bye!": the words after it do not matter, the
    book is left as it is and no further line is read. *)
Theorem exit_word_ends_the_run
    (unicode_lower : pystr -> pystr) (today : date) (user_input w : pystr)
    (args : list pystr) (rest : list (date * pystr)) (book : AddressBook) :
  split user_input = w :: args ->
  is_exit_word (lower unicode_lower w) = true ->
  main_loop unicode_lower ((today, user_input) :: rest) book
  = ([Input PROMPT; Print (lit "Good bye!")], Exited, book).
Proof.
  intros Hs He. cbn [main_loop]. unfold main_turn.
  rewrite (parse_input_words unicode_lower user_input w args Hs).
  unfold is_exit_word in He. now rewrite He.
Qed.

Lemma exit_word_ends_the_run_witness :
  main_loop (fun s => s)
    [(monday_2024_06_03, lit "  EXIT now"); (monday_2024_06_03, lit "all")]
    book_alice
  = ([Input PROMPT; Print (lit "Good bye!")], Exited, book_alice).
Proof.
  apply (exit_word_ends_the_run (fun s => s) monday_2024_06_03 (lit "  EXIT now")
           (lit "EXIT") [lit "now"] [(monday_2024_06_03, lit "all")] book_alice);
    reflexivity.
Defined.

(** [main] calls the handler its first word names, in letters of any case,
    with the other words of the line as arguments, and prints what the
    handler returns; an exception that escapes the handler leaves [main]. *)
Theorem main_calls_the_handler
    (unicode_lower : pystr -> pystr) (today : date) (user_input w : pystr)
    (args : list pystr) (book : AddressBook) (c : command) :
  split user_input = w :: args ->
  command_of_word (lower unicode_lower w) = Some c ->
  main_turn unicode_lower today user_input book
  = print_result (run today c args book).
Proof.
  intros Hs Hc. unfold main_turn.
  rewrite (parse_input_words unicode_lower user_input w args Hs).
  remember (lower unicode_lower w) as cmd eqn:Hcmd. clear Hcmd Hs.
  revert Hc. unfold command_of_word.
  repeat (destruct (is_command cmd _) eqn:E;
          [apply str_eqb_eq in E; subst cmd; intros [= <-]; reflexivity|clear E]).
  discriminate.
Qed.

Lemma main_calls_the_handler_witness :
  main_turn (fun s => s) monday_2024_06_03 (lit "Add alice 1234567890") []
  = TurnContinue (lit "Contact added.") book_alice.
Proof.
  exact (main_calls_the_handler (fun s => s) monday_2024_06_03
           (lit "Add alice 1234567890") (lit "Add") [alice; lit "1234567890"]
           [] CmdAdd eq_refl eq_refl).
Defined.

(** A first word that is none of the commands is answered with
    "Not a valid command '<word>'", the word shown in lower case; the book
    is left as it is and the loop goes on. *)
Theorem unknown_word_is_reported
    (unicode_lower : pystr -> pystr) (today : date) (user_input w : pystr)
    (args : list pystr) (book : AddressBook) :
  split user_input = w :: args ->
  is_exit_word (lower unicode_lower w) = false ->
  is_command (lower unicode_lower w) "hello" = false ->
  command_of_word (lower unicode_lower w) = None ->
  main_turn unicode_lower today user_input book
  = TurnContinue
      (lit "Not a valid command '" ++ lower unicode_lower w ++ lit "'") book.
Proof.
  intros Hs He Hh Hc. unfold main_turn.
  rewrite (parse_input_words unicode_lower user_input w args Hs).
  remember (lower unicode_lower w) as cmd eqn:Hcmd. clear Hcmd Hs.
  unfold is_exit_word in He. rewrite He, Hh.
  revert Hc. unfold command_of_word.
  repeat (destruct (is_command cmd _); [discriminate|]).
  reflexivity.
Qed.

Lemma unknown_word_is_reported_witness :
  main_turn (fun s => s) monday_2024_06_03 (lit "Delete alice") book_alice
  = TurnContinue (lit "Not a valid command 'delete'") book_alice.
Proof.
  exact (unknown_word_is_reported (fun s => s) monday_2024_06_03
           (lit "Delete alice") (lit "Delete") [alice] book_alice
           eq_refl eq_refl eq_refl eq_refl).
Defined.

Lemma run_keeps_book_ok
    (today : date) (c : command) (args : list pystr) (book : AddressBook) :
  book_ok book -> book_ok (snd (run today c args book)).
Proof.
  intros Hok.
  destruct (run_book_shape today c args book)
    as [->|(n & rest & r' & _ & -> & [(_ & Hn & Hp)|(_ & r & Hf & Hn & Hp)])].
  - exact Hok.
  - apply book_ok_set; auto. now rewrite Hn.
  - destruct (book_ok_find book n r Hok Hf) as [Hrn Hrp].
    apply book_ok_set; auto. now rewrite Hn.
Qed.

Lemma print_result_book_ok (r : result pyval * AddressBook) :
  book_ok (snd r) ->
  match print_result r with
  | TurnContinue _ book' | TurnRaise _ book' => book_ok book'
  | TurnBreak _ => True
  end.
Proof. destruct r as [[v|e] b]; simpl; auto. Qed.

Lemma main_turn_book_ok
    (unicode_lower : pystr -> pystr) (today : date) (user_input : pystr)
    (book : AddressBook) :
  book_ok book ->
  match main_turn unicode_lower today user_input book with
  | TurnContinue _ book' | TurnRaise _ book' => book_ok book'
  | TurnBreak _ => True
  end.
Proof.
  intros Hok. unfold main_turn.
  destruct (parse_input unicode_lower user_input) as [[cmd args]|e]; [|exact Hok].
  repeat match goal with
         | |- context [if ?t then _ else _] => destruct t
         end;
    try exact I; try exact Hok; apply print_result_book_ok.
  - exact (run_keeps_book_ok today CmdAdd args book Hok).
  - exact (run_keeps_book_ok today CmdChange args book Hok).
  - exact (run_keeps_book_ok today CmdPhone args book Hok).
  - exact (run_keeps_book_ok today CmdAll args book Hok).
  - exact (run_keeps_book_ok today CmdAddBirthday args book Hok).
  - exact (run_keeps_book_ok today CmdShowBirthday args book Hok).
  - exact (run_keeps_book_ok today CmdBirthdays args book Hok).
Qed.

Lemma main_loop_book_ok
    (unicode_lower : pystr -> pystr) (inputs : list (date * pystr))
    (book : AddressBook) :
  book_ok book -> book_ok (snd (main_loop unicode_lower inputs book)).
Proof.
  revert book. induction inputs as [|[today line] inputs IH]; intros book Hok.
  - exact Hok.
  - cbn [main_loop].
    pose proof (main_turn_book_ok unicode_lower today line book Hok) as Ht.
    destruct (main_turn unicode_lower today line book) as [out b'|out|e b'].
    + specialize (IH b' Ht).
      destruct (main_loop unicode_lower inputs b') as [[ev en] b]. exact IH.
    + exact Hok.
    + exact Ht.
Qed.

(** Whatever is typed, the book [main] holds when the run ends is in
    order: names are unique, every record is stored under its own name, and
    every contact has at least one phone. *)
Theorem main_keeps_book_ok
    (unicode_lower : pystr -> pystr) (inputs : list (date * pystr)) :
  book_ok (snd (main unicode_lower inputs)).
Proof.
  unfold main.
  pose proof (main_loop_book_ok unicode_lower inputs [] book_ok_empty) as H.
  destruct (main_loop unicode_lower inputs []) as [[ev en] b]. exact H.
Qed.

Lemma other_handlers_return_a_string_witness :
  exists s, fst (run monday_2024_06_03 CmdChange [alice] book_alice) = Ok (Str s).
Proof.
  apply (other_handlers_return_a_string monday_2024_06_03 CmdChange [alice]
           book_alice).
  discriminate.
Defined.

(** A run of the program: two contacts are added, one gets a birthday, and
    the weekly query then stops the program, the record of alice having no
    birthday. *)
Example main_run_stopped_by_the_weekly_query :
  main (fun s => s)
    [ (monday_2024_06_03, lit "add alice 1234567890");
      (monday_2024_06_03, lit "ADD bob 0987654321");
      (monday_2024_06_03, lit "add-birthday bob 08.06.1995");
      (monday_2024_06_03, lit "show-birthday bob");
      (monday_2024_06_03, lit "birthdays");
      (monday_2024_06_03, lit "all") ]
  = ( [ Print (lit "Welcome to the assistant bot!");
        Input PROMPT; Print (lit "Contact added.");
        Input PROMPT; Print (lit "Contact added.");
        Input PROMPT; Print (lit "Birthday added.");
        Input PROMPT; Print (lit "1995-06-08 00:00:00");
        Input PROMPT ],
      Uncaught AttributeError, book_alice_bob ).
Proof. reflexivity. Qed.

(** A run that reaches the end of its input. *)
Example main_run_to_end_of_input :
  main (fun s => s)
    [ (monday_2024_06_03, lit "hello");
      (monday_2024_06_03, lit "all") ]
  = ( [ Print (lit "Welcome to the assistant bot!");
        Input PROMPT; Print (lit "How can I help you?");
        Input PROMPT; Print (lit "No contacts stored.");
        Input PROMPT ],
      EndOfInput, [] ).
Proof. reflexivity. Qed.
